(** * sign-s3-url: the pre-signed upload URL handler and its quota gate

    A shallow embedding of the two revisions of the Lambda handler
    ([src/main.go] and [src/unnamed/part_000]) and the properties of the
    authorization decision.

    The AWS SDK, [encoding/json] and the process environment are external
    collaborators: they are gathered in a record [World] of oracles, and
    every call the program makes to a backend, as well as every log line,
    is recorded in a trace of [Event]s, so that "no URL was signed" and
    "the same requests were sent" are statements about the trace. *)

From Stdlib Require Import ZArith String List Bool Lia Permutation.
Import ListNotations.

Open Scope string_scope.
Open Scope Z_scope.

(** ** Go data *)

(** A Go [error] is observed only through [err.Error()]. *)
Definition error := string.

(** [int] and [int64] are 64-bit two's complement on the Lambda targets. *)
Definition min_int64 : Z := - 2 ^ 63.
Definition max_int64 : Z := 2 ^ 63 - 1.

Definition wrap64 (z : Z) : Z := (z + 2 ^ 63) mod 2 ^ 64 - 2 ^ 63.

Definition in_int64 (z : Z) : Prop := min_int64 <= z <= max_int64.

(** [type User struct] *)
Record User := mkUser {
  Email : string;
  Sub : string;
  CompanyID : string;
  UserName : string;
  FileRequest : string;
  FileSize : Z;
  Payed : bool;
  ServiceTier : Z
}.

(** The zero value [var user User]. *)
Definition zeroUser : User := mkUser "" "" "" "" "" 0 false 0.

(** [type URLSign struct] *)
Record URLSign := mkURLSign { URL : string }.

Module events.
Record APIGatewayProxyRequest := mkRequest { RequestBody : string }.

Record APIGatewayProxyResponse := mkResponse {
  StatusCode : Z;
  Headers : list (string * string);
  Body : string
}.
End events.

Module dynamodb.
Inductive AttributeValue :=
| AttrS (s : string)
| AttrN (n : string)
| AttrBOOL (b : bool).

(** [map[string]*dynamodb.AttributeValue]; the program only takes its
    [len] and hands it to [dynamodbattribute.UnmarshalMap]. *)
Definition Item := list (string * AttributeValue).

Record GetItemInput := mkGetItemInput {
  TableName : string;
  Key : Item
}.
End dynamodb.

Module s3.
Record ListObjectsInput := mkListObjectsInput {
  Bucket : string;
  Prefix : string;
  Delimiter : string
}.

Record Object := mkObject { ObjectKey : string; Size : Z }.

Record ListObjectsOutput := mkListObjectsOutput { Contents : list Object }.

Record PutObjectInput := mkPutObjectInput {
  PutBucket : string;
  PutKey : string
}.
End s3.

(** ** The collaborators *)

Record World := mkWorld {
  (** [os.Getenv] *)
  Getenv : string -> string;
  (** the error of [session.NewSession()] *)
  NewSession : option error;
  (** [json.Unmarshal([]byte(body), &user)] on a zero [User] *)
  json_Unmarshal : string -> error + User;
  (** [svc.GetItem] *)
  GetItem : dynamodb.GetItemInput -> dynamodb.Item * option error;
  (** [dynamodbattribute.UnmarshalMap(item, &dUser)] on a zero [User] *)
  UnmarshalMap : dynamodb.Item -> error + User;
  (** [svc.ListObjects]: one response *)
  ListObjects : s3.ListObjectsInput -> s3.ListObjectsOutput * option error;
  (** what the backend answers to the paginated listing: the pages it
      delivers, in order, and the error of the request that follows the
      last delivered page, if that request fails *)
  ListPages : s3.ListObjectsInput -> list s3.ListObjectsOutput * option error;
  (** [svc.PutObjectRequest(input)] followed by [req.Presign(expire)] *)
  Presign : s3.PutObjectInput -> Z -> string * option error;
  (** [json.Marshal(&signedURL)] *)
  json_Marshal : URLSign -> string * option error
}.

(** ** Effects: a trace of backend calls and log lines *)

Inductive Event :=
| CallNewSession
| CallGetItem (input : dynamodb.GetItemInput)
| CallListObjects (input : s3.ListObjectsInput)
| CallListObjectsPages (input : s3.ListObjectsInput)
| CallPresign (input : s3.PutObjectInput) (expire : Z)
| LogUser (user : User)
| LogPage (pageNum : Z)
| LogSignedURL (url : string).

Definition M (A : Type) : Type := A * list Event.

Definition ret {A} (a : A) : M A := (a, []).

Definition bind {A B} (m : M A) (f : A -> M B) : M B :=
  let (a, t1) := m in
  let (b, t2) := f a in
  (b, (t1 ++ t2)%list).

Definition emit (e : Event) : M unit := (tt, [e]).

Definition result {A} (m : M A) : A := fst m.
Definition trace {A} (m : M A) : list Event := snd m.

Declare Scope go_scope.
Delimit Scope go_scope with go.

Notation "x <- c1 ;; c2" := (bind c1 (fun x => c2))
  (at level 100, c1 at next level, right associativity) : go_scope.
Notation "' pat <- c1 ;; c2" := (bind c1 (fun x => match x with pat => c2 end))
  (at level 100, pat pattern, c1 at next level, right associativity) : go_scope.
Notation "c1 ;;; c2" := (bind c1 (fun _ => c2))
  (at level 100, right associativity) : go_scope.

Open Scope go_scope.

Definition isPresign (e : Event) : bool :=
  match e with CallPresign _ _ => true | _ => false end.

(** No URL was requested from the signing backend. *)
Definition neverSigned (t : list Event) : Prop := existsb isPresign t = false.

(** ** time *)

Definition Nanosecond : Z := 1.
Definition Second : Z := 1000000000 * Nanosecond.
Definition Minute : Z := 60 * Second.

(** ** The SDK's pagination loop

    [ListObjectsPages(input, fn)] hands each delivered page to [fn]
    together with the last-page flag, stops as soon as [fn] answers
    [false], and returns the error of the failed request, if any.  The
    variables the closure captures are threaded as [St]. *)

Section Pagination.
Context {St : Type}.
Variable fn : s3.ListObjectsOutput -> bool -> St -> M (bool * St).

Fixpoint pagesLoop (pages : list s3.ListObjectsOutput) (failing : bool)
         (st : St) : M (St * bool) :=
  match pages with
  | [] => ret (st, false)
  | page :: rest =>
      let lastPage := match rest with [] => negb failing | _ :: _ => false end in
      '(continue, st') <- fn page lastPage st ;;
      if continue then pagesLoop rest failing st' else ret (st', true)
  end.

Definition ListObjectsPages (w : World) (input : s3.ListObjectsInput)
           (st : St) : M (St * option error) :=
  emit (CallListObjectsPages input) ;;;
  let (pages, err) := ListPages w input in
  '(st', stopped) <- pagesLoop pages (match err with Some _ => true | None => false end) st ;;
  ret (st', if stopped then None else err).
End Pagination.

(** * Revision [src/unnamed/part_000] *)

Module Part000.
Import events.

(** The callback of [calculateObjectSize]; its state is
    [(pageNum, totalSize)]. *)
Definition pageCallback (page : s3.ListObjectsOutput) (lastPage : bool)
           (st : Z * Z) : M (bool * (Z * Z)) :=
  let (pageNum, totalSize) := st in
  emit (LogPage pageNum) ;;;
  let pageNum := wrap64 (pageNum + 1) in
  let totalSize :=
    fold_left (fun totalSize value => wrap64 (totalSize + s3.Size value))
              (s3.Contents page) totalSize in
  ret (true, (pageNum, totalSize)).

Definition inputparams (w : World) (user : User) : s3.ListObjectsInput :=
  {| s3.Bucket := Getenv w "BUCKET";
     s3.Prefix := CompanyID user ++ "/";
     s3.Delimiter := "/" |}.

Definition calculateObjectSize (w : World) (user : User) : M Z :=
  '(st, _) <- ListObjectsPages pageCallback w (inputparams w user) (0, 0) ;;
  ret (snd st).

(** The [switch user.ServiceTier] that selects [maxSize]. *)
Definition maxSize (tier : Z) : Z :=
  match tier with
  | 0 => 10000000
  | 1 => 40000000000
  | 2 => 1000000000000
  | _ => 10000000
  end.

Definition exceeded : error := "Maximum amount of stored data exceeded".

Definition verifyUserGrants (w : World) (user : User) : M (bool * option error) :=
  totalSize <- calculateObjectSize w user ;;
  let maxSize := maxSize (ServiceTier user) in
  if ServiceTier user =? 0 then
    if (totalSize >=? maxSize) || (wrap64 (totalSize + FileSize user) >? maxSize)
    then ret (false, Some exceeded)
    else ret (true, None)
  else if ServiceTier user =? 2 then
    if (totalSize >=? maxSize) || (wrap64 (totalSize + FileSize user) >? maxSize)
    then ret (false, Some exceeded)
    else ret (true, None)
  else ret (false, None).

Definition getItemInput (w : World) (user : User) : dynamodb.GetItemInput :=
  {| dynamodb.TableName := Getenv w "DYNAMO_TABLE";
     dynamodb.Key := [("sub", dynamodb.AttrS (Sub user))] |}.

(** The fields copied from the stored record onto the request. *)
Definition enrich (user dUser : User) : User :=
  mkUser (Email user) (Sub user) (CompanyID dUser) (UserName user)
         (FileRequest user) (FileSize user) (Payed dUser) (ServiceTier dUser).

(** [validateUser] has a pointer receiver: the updated [User] is
    returned next to the Go results. *)
Definition validateUser (w : World) (user : User) : M (User * (bool * option error)) :=
  emit (CallGetItem (getItemInput w user)) ;;;
  let (item, err) := GetItem w (getItemInput w user) in
  match err with
  | Some e => ret (user, (false, Some e))
  | None =>
      if (Z.of_nat (length item) =? 0) then ret (user, (false, Some "User not found"))
      else
        match UnmarshalMap w item with
        | inl e => ret (user, (false, Some e))
        | inr dUser =>
            let user := enrich user dUser in
            emit (LogUser user) ;;;
            '(grants, err) <- verifyUserGrants w user ;;
            match err with
            | Some e => ret (user, (false, Some e))
            | None =>
                if grants && Payed user then ret (user, (true, None))
                else ret (user, (false, err))
            end
        end
  end.

Definition putObjectInput (user : User) : s3.PutObjectInput :=
  {| s3.PutBucket := "rsmachiner-user-code";
     s3.PutKey := CompanyID user ++ "/" ++ FileRequest user |}.

Definition expire : Z := Minute * 60 * 24 * 5.

Definition signURLForUser (w : World) (user : User) : M (string * option error) :=
  emit (CallPresign (putObjectInput user) expire) ;;;
  let (str, err) := Presign w (putObjectInput user) expire in
  match err with
  | Some e => ret ("", Some e)
  | None => ret (str, None)
  end.

Definition headers : list (string * string) :=
  [("Access-Control-Allow-Origin", "*"); ("Access-Control-Allow-Methods", "*")].

(** What [HandleRequest] does once the payload is parsed. *)
Definition handleUser (w : World) (user : User)
  : M (APIGatewayProxyResponse * option error) :=
  '(user, (valid, err)) <- validateUser w user ;;
  if negb valid || (match err with Some _ => true | None => false end) then
    match err with
    | Some e => ret (mkResponse 400 [] e, None)
    | None => ret (mkResponse 400 [] "Invalid User Request", None)
    end
  else
    '(url, err) <- signURLForUser w user ;;
    emit (LogSignedURL url) ;;;
    if (url =? "")%string || (match err with Some _ => true | None => false end) then
      match err with
      | Some e => ret (mkResponse 400 [] e, None)
      | None => ret (mkResponse 400 [] "Unable to sign URL", None)
      end
    else
      let signedURL := mkURLSign url in
      let (data, err) := json_Marshal w signedURL in
      match err with
      | Some e => ret (mkResponse 400 [] e, None)
      | None => ret (mkResponse 200 headers data, None)
      end.

Definition HandleRequest (w : World) (event : APIGatewayProxyRequest)
  : M (APIGatewayProxyResponse * option error) :=
  emit CallNewSession ;;;
  match NewSession w with
  | Some e => ret (mkResponse 0 [] e, None)
  | None =>
      match json_Unmarshal w (RequestBody event) with
      | inl e => ret (mkResponse 400 [] e, None)
      | inr user => handleUser w user
      end
  end.
End Part000.

(** * Revision [src/main.go] *)

Module MainGo.
Import events.

Definition getItemInput (w : World) (user : User) : dynamodb.GetItemInput :=
  {| dynamodb.TableName := Getenv w "DYNAMO_TABLE";
     dynamodb.Key := [("sub", dynamodb.AttrS (Sub user))] |}.

Definition enrich (user dUser : User) : User :=
  mkUser (Email user) (Sub user) (CompanyID dUser) (UserName user)
         (FileRequest user) (FileSize user) (Payed dUser) (ServiceTier dUser).

Definition validateUser (w : World) (user : User) : M (User * (bool * option error)) :=
  emit (CallGetItem (getItemInput w user)) ;;;
  let (item, err) := GetItem w (getItemInput w user) in
  match err with
  | Some e => ret (user, (false, Some e))
  | None =>
      if (Z.of_nat (length item) =? 0) then ret (user, (false, Some "User not found"))
      else
        match UnmarshalMap w item with
        | inl e => ret (user, (false, Some e))
        | inr dUser =>
            if (Sub dUser =? Sub user)%string then ret (enrich user dUser, (true, None))
            else ret (user, (false, Some "User invalid"))
        end
  end.

Definition listObjectsInput (user : User) : s3.ListObjectsInput :=
  {| s3.Bucket := "rsmachiner-user-code";
     s3.Prefix := CompanyID user ++ "/";
     s3.Delimiter := "/" |}.

(** Defined in this revision, but not called by its [HandleRequest]. *)
Definition verifyUserGrants (w : World) (user : User) : M (bool * option error) :=
  emit (CallListObjects (listObjectsInput user)) ;;;
  let (objects, _) := ListObjects w (listObjectsInput user) in
  let totalSize :=
    fold_left (fun totalSize object => wrap64 (totalSize + s3.Size object))
              (s3.Contents objects) 0 in
  if ServiceTier user =? 0 then
    if FileSize user >? 10000000 then ret (false, Some "File size exceeded tier limit")
    else if Z.of_nat (length (s3.Contents objects)) >? 5
    then ret (false, Some "Number of files in tier exceeded")
    else ret (true, None)
  else if ServiceTier user =? 1 then
    if (totalSize >=? 42949672960) || (wrap64 (totalSize + FileSize user) >? 42949672960)
    then ret (false, Some "Maximum amount of stored data exceeded")
    else ret (true, None)
  else if ServiceTier user =? 2 then ret (false, None)
  else ret (false, None).

Definition putObjectInput (user : User) : s3.PutObjectInput :=
  {| s3.PutBucket := "rsmachiner-user-code";
     s3.PutKey := CompanyID user ++ "/" ++ FileRequest user |}.

Definition expire : Z := 5 * Minute.

Definition signURLForUser (w : World) (user : User) : M (string * option error) :=
  emit (CallPresign (putObjectInput user) expire) ;;;
  let (str, err) := Presign w (putObjectInput user) expire in
  match err with
  | Some e => ret ("", Some e)
  | None => ret (str, None)
  end.

Definition handleUser (w : World) (user : User)
  : M (APIGatewayProxyResponse * option error) :=
  '(user, (valid, err)) <- validateUser w user ;;
  if negb valid || (match err with Some _ => true | None => false end) then
    match err with
    | Some e => ret (mkResponse 400 [] e, None)
    | None => ret (mkResponse 400 [] "Invalid User Request", None)
    end
  else
    '(url, err) <- signURLForUser w user ;;
    if (url =? "")%string || (match err with Some _ => true | None => false end) then
      match err with
      | Some e => ret (mkResponse 400 [] e, None)
      | None => ret (mkResponse 400 [] "Unable to sign URL", None)
      end
    else
      let signedURL := mkURLSign url in
      let (data, err) := json_Marshal w signedURL in
      match err with
      | Some e => ret (mkResponse 400 [] e, None)
      | None => ret (mkResponse 200 [] data, None)
      end.

Definition HandleRequest (w : World) (event : APIGatewayProxyRequest)
  : M (APIGatewayProxyResponse * option error) :=
  emit CallNewSession ;;;
  match NewSession w with
  | Some e => ret (mkResponse 0 [] e, None)
  | None =>
      match json_Unmarshal w (RequestBody event) with
      | inl e => ret (mkResponse 400 [] e, None)
      | inr user => handleUser w user
      end
  end.
End MainGo.

(** * Vocabulary of the statements *)

(** Sum of the sizes of a list of objects, in unbounded integers. *)
Definition sizeSum (objs : list s3.Object) : Z :=
  fold_right (fun o acc => s3.Size o + acc) 0 objs.

(** All objects of an enumeration, over all its pages. *)
Definition allObjects (pages : list s3.ListObjectsOutput) : list s3.Object :=
  concat (map s3.Contents pages).

(** The ["PAGE: "] log lines of an enumeration that visits every page,
    numbered from [n]. *)
Fixpoint pageLog (n : Z) (pages : list s3.ListObjectsOutput) : list Event :=
  match pages with
  | [] => []
  | _ :: rest => LogPage n :: pageLog (wrap64 (n + 1)) rest
  end.

(** The request with another client-supplied [company_id]. *)
Definition withCompanyID (c : string) (user : User) : User :=
  mkUser (Email user) (Sub user) c (UserName user)
         (FileRequest user) (FileSize user) (Payed user) (ServiceTier user).

Definition withServiceTier (t : Z) (user : User) : User :=
  mkUser (Email user) (Sub user) (CompanyID user) (UserName user)
         (FileRequest user) (FileSize user) (Payed user) t.

Definition withPayed (b : bool) (user : User) : User :=
  mkUser (Email user) (Sub user) (CompanyID user) (UserName user)
         (FileRequest user) (FileSize user) b (ServiceTier user).

Definition withFileSize (size : Z) (user : User) : User :=
  mkUser (Email user) (Sub user) (CompanyID user) (UserName user)
         (FileRequest user) size (Payed user) (ServiceTier user).

Definition isListing (e : Event) : bool :=
  match e with
  | CallListObjects _ | CallListObjectsPages _ => true
  | _ => false
  end.

(** What each backend call of a request of [part_000] for [user] may
    carry: the lookup is keyed by the request's [sub] in the table named
    by [DYNAMO_TABLE]; the listing is of the bucket named by [BUCKET],
    delimited by "/"; signing is for the fixed bucket, for five days. *)
Definition expectedCall (w : World) (user : User) (e : Event) : Prop :=
  match e with
  | CallGetItem input =>
      dynamodb.TableName input = Getenv w "DYNAMO_TABLE" /\
      dynamodb.Key input = [("sub", dynamodb.AttrS (Sub user))]
  | CallListObjects _ => False
  | CallListObjectsPages input =>
      s3.Bucket input = Getenv w "BUCKET" /\ s3.Delimiter input = "/"
  | CallPresign input expire =>
      s3.PutBucket input = "rsmachiner-user-code" /\
      expire = 432000 * Second /\
      exists c, s3.PutKey input = c ++ "/" ++ FileRequest user
  | _ => True
  end.

(** The request is parsed and its subject resolves to the stored record
    [dUser]: session, payload, lookup and record decoding all succeed. *)
Definition resolves (w : World) (gi : User -> dynamodb.GetItemInput)
           (event : events.APIGatewayProxyRequest) (user dUser : User) : Prop :=
  NewSession w = None /\
  json_Unmarshal w (events.RequestBody event) = inr user /\
  exists item, GetItem w (gi user) = (item, None) /\
               item <> [] /\
               UnmarshalMap w item = inr dUser.

(** ** The bucket behind the listing

    Modelled from the Amazon S3 documentation of [ListObjects]: the
    response is limited to the keys that begin with [Prefix]; with a
    [Delimiter], a key that contains the delimiter after the prefix is
    rolled up into [CommonPrefixes] and is returned nowhere else in the
    response, so that [Contents] holds only the keys without a delimiter
    after the prefix. *)

Module S3Model.

(** A bucket: its objects, in key order. *)
Definition Bucket := list s3.Object.

(** The part of [key] after a prefix of length [String.length prefix]. *)
Definition afterPrefix (prefix key : string) : string :=
  substring (String.length prefix) (String.length key - String.length prefix) key.

Definition underPrefix (prefix : string) (o : s3.Object) : bool :=
  String.prefix prefix (s3.ObjectKey o).

Definition rolledUp (prefix delimiter : string) (o : s3.Object) : bool :=
  if (delimiter =? "")%string then false
  else match index 0 delimiter (afterPrefix prefix (s3.ObjectKey o)) with
       | Some _ => true
       | None => false
       end.

(** The objects of the bucket that a listing returns in [Contents]. *)
Definition contents (input : s3.ListObjectsInput) (bucket : Bucket) : list s3.Object :=
  filter (fun o => underPrefix (s3.Prefix input) o
                   && negb (rolledUp (s3.Prefix input) (s3.Delimiter input) o))
         bucket.

(** All the objects stored under a prefix. *)
Definition stored (prefix : string) (bucket : Bucket) : list s3.Object :=
  filter (underPrefix prefix) bucket.

End S3Model.

(** ** The quota rule in the words of the specification

    Tier ceiling table, unrecognized tier -> Free's ceiling; deny with
    reason "quota exceeded" when usage >= ceiling or usage + size >
    ceiling, otherwise allow. *)

Inductive Decision :=
| Allow
| Deny (reason : string).

Definition spec_ceiling (tier : Z) : Z :=
  match tier with
  | 0 => 10000000
  | 1 => 40000000000
  | 2 => 1000000000000
  | _ => 10000000
  end.

Definition spec_decide (tier usage size : Z) : Decision :=
  if (usage >=? spec_ceiling tier) || (usage + size >? spec_ceiling tier)
  then Deny "quota exceeded"
  else Allow.

(** The decision a Go result pair [(grants, err)] stands for. *)
Definition decisionOf (r : bool * option error) : Decision :=
  match r with
  | (_, Some e) => Deny e
  | (true, None) => Allow
  | (false, None) => Deny ""
  end.

(** ** Concrete worlds *)

Module Sample.
Import events.

Definition quote : string := String (Ascii.ascii_of_nat 34) EmptyString.

Definition itemOf (dUser : User) : dynamodb.Item :=
  [("sub", dynamodb.AttrS (Sub dUser));
   ("company_id", dynamodb.AttrS (CompanyID dUser));
   ("payed", dynamodb.AttrBOOL (Payed dUser))].

(** A table holding the single record [dUser]. *)
Definition getItem (dUser : User) (input : dynamodb.GetItemInput)
  : dynamodb.Item * option error :=
  match dynamodb.Key input with
  | [(_, dynamodb.AttrS s)] =>
      if (s =? Sub dUser)%string then (itemOf dUser, None) else ([], None)
  | _ => ([], None)
  end.

Definition presign (input : s3.PutObjectInput) (expire : Z) : string * option error :=
  ("https://" ++ s3.PutBucket input ++ ".s3.amazonaws.com/" ++ s3.PutKey input
   ++ "?X-Amz-Signature=5d7c", None).

Definition marshal (u : URLSign) : string * option error :=
  ("{" ++ quote ++ "url" ++ quote ++ ":" ++ quote ++ URL u ++ quote ++ "}", None).

Definition getenv (name : string) : string :=
  if (name =? "BUCKET")%string then "rsmachiner-user-code"
  else if (name =? "DYNAMO_TABLE")%string then "users"
  else "".

(** A world in which the body ["request"] parses to [request] and the
    body ["request+company_id"] to the same request carrying the
    [company_id] ["globex"], the table holds [dUser], and the listing
    answers [pages] then [listErr]. *)
Definition world (sessErr : option error) (request dUser : User)
           (pages : list s3.ListObjectsOutput) (listErr : option error) : World :=
  {| Getenv := getenv;
     NewSession := sessErr;
     json_Unmarshal := fun body =>
       if (body =? "request")%string then inr request
       else if (body =? "request+company_id")%string
            then inr (withCompanyID "globex" request)
            else inl "unexpected end of JSON input";
     GetItem := getItem dUser;
     UnmarshalMap := fun item => inr dUser;
     ListObjects := fun _ => (s3.mkListObjectsOutput (allObjects pages), listErr);
     ListPages := fun _ => (pages, listErr);
     Presign := presign;
     json_Marshal := marshal |}.

Definition event : APIGatewayProxyRequest := mkRequest "request".

Definition eventWithCompany : APIGatewayProxyRequest := mkRequest "request+company_id".

Definition request (tier size : Z) : User :=
  mkUser "ann@example.com" "sub-1" "" "ann" "part.gcode" size false tier.

Definition record (tier : Z) (payed : bool) : User :=
  mkUser "" "sub-1" "acme" "" "" 0 payed tier.

(** A request whose subject is not in the table, and which supplies a
    [company_id] of its own. *)
Definition stranger : User :=
  mkUser "eve@example.com" "sub-9" "acme" "eve" "part.gcode" 1 true 2.

Definition object (size : Z) : s3.Object := s3.mkObject "acme/o" size.

(** The same world with another signing backend, another encoder, or
    another identity store. *)
Definition withPresign (p : s3.PutObjectInput -> Z -> string * option error)
           (w : World) : World :=
  mkWorld (Getenv w) (NewSession w) (json_Unmarshal w) (GetItem w) (UnmarshalMap w)
          (ListObjects w) (ListPages w) p (json_Marshal w).

Definition withMarshal (m : URLSign -> string * option error) (w : World) : World :=
  mkWorld (Getenv w) (NewSession w) (json_Unmarshal w) (GetItem w) (UnmarshalMap w)
          (ListObjects w) (ListPages w) (Presign w) m.

Definition withParser (p : string -> error + User) (w : World) : World :=
  mkWorld (Getenv w) (NewSession w) p (GetItem w) (UnmarshalMap w)
          (ListObjects w) (ListPages w) (Presign w) (json_Marshal w).

(** A decoder for two bodies: ["plain"] is [request]; ["upgraded"] is
    the same request claiming to be paid and of tier 2. *)
Definition parseUpgraded (request : User) (body : string) : error + User :=
  if (body =? "plain")%string then inr request
  else if (body =? "upgraded")%string
       then inr (withPayed true (withServiceTier 2 request))
       else inl "unexpected end of JSON input".

Definition withStore (g : dynamodb.GetItemInput -> dynamodb.Item * option error)
           (u : dynamodb.Item -> error + User) (w : World) : World :=
  mkWorld (Getenv w) (NewSession w) (json_Unmarshal w) g u
          (ListObjects w) (ListPages w) (Presign w) (json_Marshal w).

(** The same world in front of a bucket small enough to be listed in
    one page. *)
Definition withBucket (bucket : S3Model.Bucket) (w : World) : World :=
  mkWorld (Getenv w) (NewSession w) (json_Unmarshal w) (GetItem w) (UnmarshalMap w)
          (fun input => (s3.mkListObjectsOutput (S3Model.contents input bucket), None))
          (fun input => ([s3.mkListObjectsOutput (S3Model.contents input bucket)], None))
          (Presign w) (json_Marshal w).

(** The account [acme] holds one object at the top of its namespace and
    one below ["acme/jobs/"]; another account holds a third. *)
Definition nestedBucket : S3Model.Bucket :=
  [s3.mkObject "acme/a.gcode" 1000000;
   s3.mkObject "acme/jobs/b.gcode" 9500000;
   s3.mkObject "globex/c.gcode" 7].

(** Two pages of three objects of 1,000,000 bytes. *)
Definition twoPages : list s3.ListObjectsOutput :=
  [s3.mkListObjectsOutput [object 1000000; object 1000000; object 1000000];
   s3.mkListObjectsOutput [object 1000000; object 1000000; object 1000000]].
End Sample.

(** * Properties *)

(** ** 64-bit arithmetic *)

Lemma wrap64_id (z : Z) : in_int64 z -> wrap64 z = z.
Proof.
  unfold in_int64, min_int64, max_int64, wrap64. intros H.
  rewrite Z.mod_small; lia.
Qed.

Lemma wrap64_add_l (a b : Z) : wrap64 (wrap64 a + b) = wrap64 (a + b).
Proof.
  unfold wrap64.
  replace ((a + 2 ^ 63) mod 2 ^ 64 - 2 ^ 63 + b + 2 ^ 63)
    with ((a + 2 ^ 63) mod 2 ^ 64 + b) by lia.
  rewrite Zplus_mod_idemp_l. f_equal. f_equal. lia.
Qed.

Lemma wrap64_range (z : Z) : in_int64 (wrap64 z).
Proof.
  unfold in_int64, min_int64, max_int64, wrap64.
  pose proof (Z.mod_pos_bound (z + 2 ^ 63) (2 ^ 64) ltac:(lia)). lia.
Qed.

Lemma sizeSum_app (l1 l2 : list s3.Object) :
  sizeSum (l1 ++ l2) = sizeSum l1 + sizeSum l2.
Proof.
  induction l1 as [|o l1 IH]; simpl; [reflexivity | rewrite IH; lia].
Qed.

(** ** The usage accountant *)

Lemma totalSize_loop (objs : list s3.Object) (t : Z) :
  fold_left (fun totalSize value => wrap64 (totalSize + s3.Size value)) objs (wrap64 t)
  = wrap64 (t + sizeSum objs).
Proof.
  revert t. induction objs as [|o objs IH]; intros t; simpl.
  - f_equal. lia.
  - rewrite wrap64_add_l, IH. f_equal. lia.
Qed.

Lemma totalSize_loop_0 (objs : list s3.Object) :
  fold_left (fun totalSize value => wrap64 (totalSize + s3.Size value)) objs 0
  = wrap64 (sizeSum objs).
Proof.
  exact (totalSize_loop objs 0).
Qed.

Lemma pagesLoop_pageCallback (pages : list s3.ListObjectsOutput) (failing : bool) (n t : Z) :
  pagesLoop Part000.pageCallback pages failing (n, wrap64 t)
  = ((fold_left (fun k _ => wrap64 (k + 1)) pages n,
      wrap64 (t + sizeSum (allObjects pages)), false),
     pageLog n pages).
Proof.
  revert n t. induction pages as [|page rest IH]; intros n t.
  - cbn [pagesLoop fold_left allObjects map concat sizeSum fold_right pageLog].
    rewrite Z.add_0_r. reflexivity.
  - cbn [pagesLoop Part000.pageCallback bind emit ret fold_left pageLog app].
    rewrite totalSize_loop, IH.
    unfold allObjects. cbn [map concat]. fold (allObjects rest).
    rewrite sizeSum_app. cbn [app]. do 4 f_equal. lia.
Qed.

Lemma calculateObjectSize_eq (w : World) (user : User) :
  Part000.calculateObjectSize w user
  = (wrap64 (sizeSum (allObjects (fst (ListPages w (Part000.inputparams w user))))),
     CallListObjectsPages (Part000.inputparams w user)
       :: pageLog 0 (fst (ListPages w (Part000.inputparams w user)))).
Proof.
  unfold Part000.calculateObjectSize, ListObjectsPages.
  destruct (ListPages w (Part000.inputparams w user)) as [pages err].
  cbn [bind emit fst].
  change 0 with (wrap64 0) at 2.
  rewrite pagesLoop_pageCallback. unfold bind, ret. cbn [snd].
  rewrite !app_nil_r. reflexivity.
Qed.

(** [calculateObjectSize] sends one listing request, for the prefix
    [CompanyID + "/"], visits every page the backend delivers for it (one
    ["PAGE: "] line per page, the callback never asks to stop), and returns
    the sum of the sizes found in the [Contents] of these pages, computed
    in [int64]: it is that sum itself whenever it is an [int64], and 0
    when the pages hold no object. *)
Theorem calculateObjectSize_exact_sum :
  forall (w : World) (user : User) (pages : list s3.ListObjectsOutput) (err : option error),
    ListPages w (Part000.inputparams w user) = (pages, err) ->
    s3.Prefix (Part000.inputparams w user) = CompanyID user ++ "/" /\
    result (Part000.calculateObjectSize w user) = wrap64 (sizeSum (allObjects pages)) /\
    (in_int64 (sizeSum (allObjects pages)) ->
     result (Part000.calculateObjectSize w user) = sizeSum (allObjects pages)) /\
    (allObjects pages = [] -> result (Part000.calculateObjectSize w user) = 0) /\
    trace (Part000.calculateObjectSize w user)
    = CallListObjectsPages (Part000.inputparams w user) :: pageLog 0 pages.
Proof.
  intros w user pages err H.
  rewrite calculateObjectSize_eq, H. unfold result, trace. cbn [fst snd].
  repeat split.
  - intros Hr. now apply wrap64_id.
  - intros ->. reflexivity.
Qed.

Lemma calculateObjectSize_exact_sum_witness :
  let w := Sample.world None (Sample.request 0 1) (Sample.record 0 true)
                        Sample.twoPages None in
  let user := Sample.record 0 true in
  result (Part000.calculateObjectSize w user) = 6000000 /\
  trace (Part000.calculateObjectSize w user)
  = [CallListObjectsPages (Part000.inputparams w user); LogPage 0; LogPage 1].
Proof.
  intros w user.
  destruct (calculateObjectSize_exact_sum w user Sample.twoPages None eq_refl)
    as (_ & _ & Hsum & _ & Htr).
  split.
  - apply Hsum. unfold in_int64, min_int64, max_int64. vm_compute. split; discriminate.
  - exact Htr.
Defined.

(** ** The usage accountant in front of a bucket *)

Lemma sizeSum_filter_split (f g : s3.Object -> bool) (l : list s3.Object) :
  sizeSum (filter f l)
  = sizeSum (filter (fun o => f o && negb (g o)) l)
    + sizeSum (filter (fun o => f o && g o) l).
Proof.
  induction l as [|o l IH]; [reflexivity|].
  cbn [filter]. destruct (f o), (g o); cbn [andb negb sizeSum fold_right];
    fold (sizeSum (filter f l));
    fold (sizeSum (filter (fun o => f o && negb (g o)) l));
    fold (sizeSum (filter (fun o => f o && g o) l)); lia.
Qed.

(** Whatever the paging, when the pages delivered for the request hold
    the [Contents] of the bucket's listing, the usage that is computed is
    the sum over the keys without a further "/" only: what is stored under
    the prefix exceeds it by the sizes of all the keys below a "/". *)
Lemma calculateObjectSize_counts_top_level_only (w : World) (user : User)
      (bucket : S3Model.Bucket) :
  allObjects (fst (ListPages w (Part000.inputparams w user)))
  = S3Model.contents (Part000.inputparams w user) bucket ->
  result (Part000.calculateObjectSize w user)
  = wrap64 (sizeSum (S3Model.contents (Part000.inputparams w user) bucket)) /\
  sizeSum (S3Model.stored (CompanyID user ++ "/") bucket)
  = sizeSum (S3Model.contents (Part000.inputparams w user) bucket)
    + sizeSum (filter (fun o => S3Model.underPrefix (CompanyID user ++ "/") o
                                && S3Model.rolledUp (CompanyID user ++ "/") "/" o)
                      bucket).
Proof.
  intros Hpages. split.
  - rewrite calculateObjectSize_eq, Hpages. reflexivity.
  - unfold S3Model.stored, S3Model.contents. cbn [Part000.inputparams s3.Prefix s3.Delimiter].
    apply sizeSum_filter_split.
Qed.

(** C5.  [calculateObjectSize] does not return the sum of the sizes of
    all objects under [CompanyID + "/"]: its request carries the delimiter
    "/", so the keys below a further "/" are not in the [Contents] it
    sums.  Here the account [acme] of tier 0 stores 1,000,000 bytes at
    ["acme/a.gcode"] and 9,500,000 bytes at ["acme/jobs/b.gcode"], a key that
    [signURLForUser] issues for the file request ["jobs/b.gcode"]; the
    usage is computed as 1,000,000 instead of 10,500,000, and a further
    upload of 5,000,000 bytes is signed. *)
Theorem calculateObjectSize_skips_nested_keys :
  let w := Sample.withBucket Sample.nestedBucket
             (Sample.world None (Sample.request 0 5000000) (Sample.record 0 true) [] None) in
  let user := Part000.enrich (Sample.request 0 5000000) (Sample.record 0 true) in
  s3.PutKey (Part000.putObjectInput
               (Part000.enrich (mkUser "ann@example.com" "sub-1" "" "ann" "jobs/b.gcode"
                                       9500000 false 0)
                               (Sample.record 0 true)))
  = "acme/jobs/b.gcode" /\
  ListPages w (Part000.inputparams w user)
  = ([s3.mkListObjectsOutput [s3.mkObject "acme/a.gcode" 1000000]], None) /\
  S3Model.stored (CompanyID user ++ "/") Sample.nestedBucket
  = [s3.mkObject "acme/a.gcode" 1000000; s3.mkObject "acme/jobs/b.gcode" 9500000] /\
  sizeSum (S3Model.stored (CompanyID user ++ "/") Sample.nestedBucket) = 10500000 /\
  result (Part000.calculateObjectSize w user) = 1000000 /\
  result (Part000.verifyUserGrants w user) = (true, None) /\
  events.StatusCode (fst (result (Part000.HandleRequest w Sample.event))) = 200.
Proof.
  cbv zeta. repeat split.
Qed.

(** ** Case analysis of the handler *)

Ltac unfold_handler :=
  unfold Part000.HandleRequest, Part000.handleUser, Part000.validateUser,
    Part000.signURLForUser, MainGo.HandleRequest, MainGo.handleUser,
    MainGo.validateUser, MainGo.signURLForUser, bind, ret, emit, result, trace.

Ltac split_path :=
  match goal with
  | |- context [match ?x with _ => _ end] =>
      lazymatch x with
      | context [match _ with _ => _ end] => fail
      | _ => destruct x eqn:?
      end
  end.

Ltac handler_paths := unfold_handler; repeat (split_path; cbn [fst snd]).

(** C10.  In both revisions every [return] of [HandleRequest] carries a
    [nil] error: whatever the event and whatever the backends answer, the
    outcome is encoded in the response alone. *)
Theorem HandleRequest_error_is_nil :
  forall (w : World) (event : events.APIGatewayProxyRequest),
    snd (result (Part000.HandleRequest w event)) = None /\
    snd (result (MainGo.HandleRequest w event)) = None.
Proof.
  intros w event. split; handler_paths; reflexivity.
Qed.

(** Once the session exists, the status code is 200 or 400. *)
Lemma HandleRequest_status_with_session (w : World) (event : events.APIGatewayProxyRequest) :
  NewSession w = None ->
  let code := events.StatusCode (fst (result (Part000.HandleRequest w event))) in
  code = 200 \/ code = 400.
Proof.
  intros Hs. unfold_handler. rewrite Hs.
  repeat (split_path; cbn [fst snd]); cbn [events.StatusCode]; auto.
Qed.

Lemma MainGo_HandleRequest_status_with_session (w : World) (event : events.APIGatewayProxyRequest) :
  NewSession w = None ->
  let code := events.StatusCode (fst (result (MainGo.HandleRequest w event))) in
  code = 200 \/ code = 400.
Proof.
  intros Hs. unfold_handler. rewrite Hs.
  repeat (split_path; cbn [fst snd]); cbn [events.StatusCode]; auto.
Qed.

(** When [session.NewSession()] fails the response is built without a
    status code, in both revisions. *)
Lemma HandleRequest_status_without_session (w : World) (event : events.APIGatewayProxyRequest) (e : error) :
  NewSession w = Some e ->
  Part000.HandleRequest w event = ((events.mkResponse 0 [] e, None), [CallNewSession]) /\
  MainGo.HandleRequest w event = ((events.mkResponse 0 [] e, None), [CallNewSession]).
Proof.
  intros Hs. unfold_handler. rewrite Hs. split; reflexivity.
Qed.

(** C7.  The status code is 200 or 400 on every path but one: on a
    session construction failure [HandleRequest] returns the zero status
    code, here with an unreadable CA bundle. *)
Theorem HandleRequest_session_failure_status :
  let w := Sample.world (Some "LoadCustomCABundleError: unable to load custom CA bundle")
                        (Sample.request 0 1) (Sample.record 0 true) [] None in
  events.StatusCode (fst (result (Part000.HandleRequest w Sample.event))) = 0 /\
  events.StatusCode (fst (result (MainGo.HandleRequest w Sample.event))) = 0 /\
  events.Body (fst (result (Part000.HandleRequest w Sample.event)))
  = "LoadCustomCABundleError: unable to load custom CA bundle".
Proof.
  repeat split.
Qed.

(** ** The quota decision of [part_000] *)

Lemma verifyUserGrants_eq (w : World) (user : User) :
  Part000.verifyUserGrants w user
  = (let totalSize := result (Part000.calculateObjectSize w user) in
     let maxSize := Part000.maxSize (ServiceTier user) in
     if (ServiceTier user =? 0) || (ServiceTier user =? 2) then
       if (totalSize >=? maxSize) || (wrap64 (totalSize + FileSize user) >? maxSize)
       then (false, Some Part000.exceeded)
       else (true, None)
     else (false, None),
     trace (Part000.calculateObjectSize w user)).
Proof.
  unfold Part000.verifyUserGrants, bind, ret, result, trace.
  destruct (Part000.calculateObjectSize w user) as [totalSize t]. cbn [fst snd].
  repeat split_path; cbn [orb] in *; rewrite ?app_nil_r; try reflexivity; discriminate.
Qed.

Lemma pageLog_neverSigned (n : Z) (pages : list s3.ListObjectsOutput) :
  neverSigned (pageLog n pages).
Proof.
  unfold neverSigned. revert n.
  induction pages as [|p rest IH]; intros n; simpl; auto.
Qed.

Lemma verifyUserGrants_neverSigned (w : World) (user : User) :
  neverSigned (trace (Part000.verifyUserGrants w user)).
Proof.
  rewrite verifyUserGrants_eq. unfold trace at 1. cbn [snd].
  rewrite calculateObjectSize_eq. unfold trace, neverSigned. cbn [snd existsb isPresign orb].
  apply pageLog_neverSigned.
Qed.

Lemma verifyUserGrants_errors (w : World) (user : User) (grants : bool) (e : error) :
  result (Part000.verifyUserGrants w user) = (grants, Some e) ->
  grants = false /\ e = Part000.exceeded.
Proof.
  rewrite verifyUserGrants_eq. unfold result at 1. cbn [fst].
  repeat split_path; intros H; inversion H; auto.
Qed.

(** ** The authorizer of [part_000] *)

Lemma len_nonempty (item : dynamodb.Item) :
  item <> [] -> (Z.of_nat (length item) =? 0) = false.
Proof.
  destruct item; [congruence | intros _; reflexivity].
Qed.

Lemma len_empty (item : dynamodb.Item) :
  (Z.of_nat (length item) =? 0) = true -> item = [].
Proof.
  destruct item; [reflexivity | discriminate].
Qed.

(** What [validateUser] does once the record is found and decoded. *)
Lemma validateUser_resolved (w : World) (user dUser : User) (item : dynamodb.Item) :
  GetItem w (Part000.getItemInput w user) = (item, None) ->
  item <> [] ->
  UnmarshalMap w item = inr dUser ->
  Part000.validateUser w user
  = ((Part000.enrich user dUser,
      match result (Part000.verifyUserGrants w (Part000.enrich user dUser)) with
      | (_, Some e) => (false, Some e)
      | (grants, None) => if grants && Payed dUser then (true, None) else (false, None)
      end),
     CallGetItem (Part000.getItemInput w user)
       :: LogUser (Part000.enrich user dUser)
       :: trace (Part000.verifyUserGrants w (Part000.enrich user dUser))).
Proof.
  intros Hg Hne Hu. unfold Part000.validateUser, bind, ret, emit, result, trace.
  rewrite Hg, (len_nonempty _ Hne), Hu.
  destruct (Part000.verifyUserGrants w (Part000.enrich user dUser)) as [[grants [e|]] t];
    cbn [fst snd app Payed Part000.enrich].
  - rewrite app_nil_r. reflexivity.
  - destruct (grants && Payed dUser); rewrite app_nil_r; reflexivity.
Qed.

(** [validateUser] answers [true] only on that path. *)
Lemma validateUser_true_inv (w : World) (user : User) :
  fst (snd (result (Part000.validateUser w user))) = true ->
  exists item dUser,
    GetItem w (Part000.getItemInput w user) = (item, None) /\
    item <> [] /\
    UnmarshalMap w item = inr dUser /\
    Payed dUser = true /\
    result (Part000.verifyUserGrants w (Part000.enrich user dUser)) = (true, None).
Proof.
  unfold Part000.validateUser, bind, ret, emit, result.
  destruct (GetItem w (Part000.getItemInput w user)) as [item [e|]]; cbn [fst snd];
    [discriminate|].
  destruct (Z.of_nat (length item) =? 0) eqn:Hlen; cbn [fst snd]; [discriminate|].
  destruct (UnmarshalMap w item) as [e|dUser] eqn:Hu; cbn [fst snd]; [discriminate|].
  destruct (Part000.verifyUserGrants w (Part000.enrich user dUser))
    as [[grants [e|]] t] eqn:Hv; cbn [fst snd]; [discriminate|].
  destruct grants; cbn [andb Payed Part000.enrich]; [|discriminate].
  destruct (Payed dUser) eqn:Hp; cbn [fst snd]; [|discriminate].
  intros _. exists item, dUser. repeat split; auto.
  - intros ->. discriminate.
  - rewrite Hv. reflexivity.
Qed.

Lemma handleUser_unauthorized (w : World) (user user' : User) (err : option error) (t : list Event) :
  Part000.validateUser w user = ((user', (false, err)), t) ->
  Part000.handleUser w user
  = ((events.mkResponse 400 []
        match err with Some e => e | None => "Invalid User Request" end, None), t).
Proof.
  intros H. unfold Part000.handleUser, bind, ret. rewrite H.
  destruct err; cbn [negb orb]; rewrite app_nil_r; reflexivity.
Qed.

Lemma handleUser_status_200_inv (w : World) (user : User) :
  events.StatusCode (fst (result (Part000.handleUser w user))) = 200 ->
  fst (snd (result (Part000.validateUser w user))) = true.
Proof.
  unfold Part000.handleUser, bind, ret, result.
  destruct (Part000.validateUser w user) as [[user' [valid err]] t]. cbn [fst snd].
  destruct valid; [reflexivity|].
  destruct err; cbn [negb orb fst events.StatusCode]; discriminate.
Qed.

Lemma HandleRequest_parsed (w : World) (event : events.APIGatewayProxyRequest) (user : User) :
  NewSession w = None ->
  json_Unmarshal w (events.RequestBody event) = inr user ->
  Part000.HandleRequest w event
  = (result (Part000.handleUser w user), CallNewSession :: trace (Part000.handleUser w user)).
Proof.
  intros Hs Hj. unfold Part000.HandleRequest, bind, emit, result, trace.
  rewrite Hs, Hj. destruct (Part000.handleUser w user). reflexivity.
Qed.

(** C4.  When the identity store holds no record for the subject of the
    request, [validateUser] fails with "User not found", the handler
    answers 400 with that message after the lookup alone, and no URL is
    signed; conversely [validateUser] answers [true], and the handler
    answers 200, only if the lookup keyed by the request's [sub] returned
    a non-empty record that decoded. *)
Theorem unknown_subject_is_rejected :
  forall (w : World) (event : events.APIGatewayProxyRequest) (user : User),
    NewSession w = None ->
    json_Unmarshal w (events.RequestBody event) = inr user ->
    (GetItem w (Part000.getItemInput w user) = ([], None) ->
     result (Part000.validateUser w user) = (user, (false, Some "User not found")) /\
     Part000.HandleRequest w event
     = ((events.mkResponse 400 [] "User not found", None),
        [CallNewSession; CallGetItem (Part000.getItemInput w user)]) /\
     neverSigned (trace (Part000.HandleRequest w event))) /\
    (fst (snd (result (Part000.validateUser w user))) = true ->
     dynamodb.Key (Part000.getItemInput w user) = [("sub", dynamodb.AttrS (Sub user))] /\
     exists dUser, resolves w (Part000.getItemInput w) event user dUser) /\
    (events.StatusCode (fst (result (Part000.HandleRequest w event))) = 200 ->
     exists dUser, resolves w (Part000.getItemInput w) event user dUser).
Proof.
  intros w event user Hs Hj.
  assert (Hinv : fst (snd (result (Part000.validateUser w user))) = true ->
                 exists dUser, resolves w (Part000.getItemInput w) event user dUser).
  { intros Ht. destruct (validateUser_true_inv w user Ht) as (item & dUser & Hg & Hne & Hu & _).
    exists dUser. unfold resolves. repeat split; auto. exists item. auto. }
  split; [|split].
  - intros Hg.
    assert (Hv : Part000.validateUser w user
                 = ((user, (false, Some "User not found")),
                    [CallGetItem (Part000.getItemInput w user)])).
    { unfold Part000.validateUser, bind, ret, emit. rewrite Hg. reflexivity. }
    assert (Hh : Part000.HandleRequest w event
                 = ((events.mkResponse 400 [] "User not found", None),
                    [CallNewSession; CallGetItem (Part000.getItemInput w user)])).
    { rewrite (HandleRequest_parsed w event user Hs Hj).
      rewrite (handleUser_unauthorized w user user _ _ Hv). reflexivity. }
    rewrite Hv, Hh. repeat split.
  - intros Ht. split; [reflexivity | auto].
  - rewrite (HandleRequest_parsed w event user Hs Hj). unfold result at 1. cbn [fst].
    intros H200. apply Hinv. now apply handleUser_status_200_inv.
Qed.

Lemma unknown_subject_is_rejected_witness :
  let w := Sample.world None Sample.stranger (Sample.record 2 true) [] None in
  Part000.HandleRequest w Sample.event
  = ((events.mkResponse 400 [] "User not found", None),
     [CallNewSession; CallGetItem (Part000.getItemInput w Sample.stranger)]) /\
  neverSigned (trace (Part000.HandleRequest w Sample.event)).
Proof.
  intros w.
  destruct (unknown_subject_is_rejected w Sample.event Sample.stranger eq_refl eq_refl)
    as (H & _ & _).
  destruct (H eq_refl) as (_ & Hh & Hn). split; assumption.
Defined.

(** C2.  When the subject resolves to a record with [payed = false], the
    authorizer answers [false] whatever the tier, the usage and the
    requested size are; the handler answers 400, its body is "Invalid User
    Request" (or the quota message when the quota check fails first), and
    no URL is signed. *)
Theorem unpaid_is_denied :
  forall (w : World) (event : events.APIGatewayProxyRequest) (user dUser : User),
    resolves w (Part000.getItemInput w) event user dUser ->
    Payed dUser = false ->
    fst (snd (result (Part000.validateUser w user))) = false /\
    events.StatusCode (fst (result (Part000.HandleRequest w event))) = 400 /\
    (events.Body (fst (result (Part000.HandleRequest w event))) = "Invalid User Request" \/
     events.Body (fst (result (Part000.HandleRequest w event))) = Part000.exceeded) /\
    (result (Part000.verifyUserGrants w (Part000.enrich user dUser)) = (true, None) ->
     events.Body (fst (result (Part000.HandleRequest w event))) = "Invalid User Request") /\
    neverSigned (trace (Part000.HandleRequest w event)).
Proof.
  intros w event user dUser (Hs & Hj & item & Hg & Hne & Hu) Hp.
  pose proof (validateUser_resolved w user dUser item Hg Hne Hu) as Hv.
  pose proof (verifyUserGrants_neverSigned w (Part000.enrich user dUser)) as Hn.
  rewrite (HandleRequest_parsed w event user Hs Hj).
  rewrite Hp in Hv.
  destruct (result (Part000.verifyUserGrants w (Part000.enrich user dUser)))
    as [grants [e|]] eqn:Hr.
  - destruct (verifyUserGrants_errors _ _ _ _ Hr) as [-> ->].
    rewrite (handleUser_unauthorized _ _ _ _ _ Hv), Hv.
    unfold result, trace. cbn [fst snd events.StatusCode events.Body].
    repeat split; auto. discriminate.
  - rewrite andb_false_r in Hv.
    rewrite (handleUser_unauthorized _ _ _ _ _ Hv), Hv.
    unfold result, trace. cbn [fst snd events.StatusCode events.Body].
    repeat split; auto.
Qed.

Lemma unpaid_is_denied_witness :
  let w := Sample.world None (Sample.request 2 1) (Sample.record 2 false) [] None in
  events.StatusCode (fst (result (Part000.HandleRequest w Sample.event))) = 400 /\
  events.Body (fst (result (Part000.HandleRequest w Sample.event))) = "Invalid User Request".
Proof.
  intros w.
  assert (Hr : resolves w (Part000.getItemInput w) Sample.event
                        (Sample.request 2 1) (Sample.record 2 false)).
  { repeat split. exists (Sample.itemOf (Sample.record 2 false)).
    repeat split. discriminate. }
  destruct (unpaid_is_denied w Sample.event _ _ Hr eq_refl) as (_ & H400 & _ & Hb & _).
  split; [exact H400 | apply Hb; reflexivity].
Defined.

(** ** The client-supplied [company_id] *)

Lemma handleUser_withCompanyID (w : World) (c : string) (user : User) :
  Part000.handleUser w (withCompanyID c user) = Part000.handleUser w user.
Proof.
  unfold Part000.handleUser, Part000.validateUser.
  change (Part000.getItemInput w (withCompanyID c user)) with (Part000.getItemInput w user).
  unfold bind, ret, emit.
  destruct (GetItem w (Part000.getItemInput w user)) as [item [e|]]; [reflexivity|].
  destruct (Z.of_nat (length item) =? 0); [reflexivity|].
  destruct (UnmarshalMap w item) as [e|dUser]; [reflexivity|].
  change (Part000.enrich (withCompanyID c user) dUser) with (Part000.enrich user dUser).
  reflexivity.
Qed.

Lemma MainGo_handleUser_withCompanyID (w : World) (c : string) (user : User) :
  MainGo.handleUser w (withCompanyID c user) = MainGo.handleUser w user.
Proof.
  unfold MainGo.handleUser, MainGo.validateUser.
  change (MainGo.getItemInput w (withCompanyID c user)) with (MainGo.getItemInput w user).
  change (Sub (withCompanyID c user)) with (Sub user).
  unfold bind, ret, emit.
  destruct (GetItem w (MainGo.getItemInput w user)) as [item [e|]]; [reflexivity|].
  destruct (Z.of_nat (length item) =? 0); [reflexivity|].
  destruct (UnmarshalMap w item) as [e|dUser]; [reflexivity|].
  change (MainGo.enrich (withCompanyID c user) dUser) with (MainGo.enrich user dUser).
  destruct (Sub dUser =? Sub user)%string; reflexivity.
Qed.

(** The calls that carry a namespace in a trace. *)
Lemma handleUser_resolved_trace (w : World) (user dUser : User) (item : dynamodb.Item) :
  GetItem w (Part000.getItemInput w user) = (item, None) ->
  item <> [] ->
  UnmarshalMap w item = inr dUser ->
  exists tail,
    trace (Part000.handleUser w user)
    = CallGetItem (Part000.getItemInput w user)
        :: LogUser (Part000.enrich user dUser)
        :: CallListObjectsPages (Part000.inputparams w (Part000.enrich user dUser))
        :: (pageLog 0 (fst (ListPages w (Part000.inputparams w (Part000.enrich user dUser))))
            ++ tail)%list /\
    (tail = [] \/
     tail = [CallPresign (Part000.putObjectInput (Part000.enrich user dUser)) Part000.expire;
             LogSignedURL (fst (result (Part000.signURLForUser w (Part000.enrich user dUser))))]).
Proof.
  intros Hg Hne Hu.
  pose proof (validateUser_resolved w user dUser item Hg Hne Hu) as Hv.
  unfold Part000.handleUser, bind, trace. rewrite Hv.
  rewrite verifyUserGrants_eq. unfold trace at 1. cbn [snd fst result].
  rewrite calculateObjectSize_eq. unfold trace, result. cbn [fst snd].
  unfold Part000.signURLForUser, bind, ret, emit.
  repeat (split_path; cbn [fst snd app]);
    rewrite ?app_nil_r;
    first [ exists []; split; [rewrite ?app_nil_r; reflexivity | left; reflexivity]
          | eexists; split; [reflexivity | right; reflexivity] ].
Qed.

(** C3.  Two requests that differ only in the [company_id] the client
    supplies get the same response and cause the same backend calls and
    log lines; once the lookup succeeds, the request carries the record's
    [CompanyID], the usage listing runs under the record's [CompanyID]
    followed by "/", and any signing request is for the key made of the
    record's [CompanyID], "/" and the requested file. *)
Theorem company_id_is_not_trusted :
  forall (w : World) (e1 e2 : events.APIGatewayProxyRequest) (user : User) (c : string),
    json_Unmarshal w (events.RequestBody e1) = inr user ->
    json_Unmarshal w (events.RequestBody e2) = inr (withCompanyID c user) ->
    Part000.HandleRequest w e1 = Part000.HandleRequest w e2 /\
    MainGo.HandleRequest w e1 = MainGo.HandleRequest w e2 /\
    forall (item : dynamodb.Item) (dUser : User),
      GetItem w (Part000.getItemInput w user) = (item, None) ->
      item <> [] ->
      UnmarshalMap w item = inr dUser ->
      CompanyID (fst (result (Part000.validateUser w (withCompanyID c user)))) = CompanyID dUser /\
      (forall input, In (CallListObjectsPages input) (trace (Part000.handleUser w (withCompanyID c user))) ->
                     s3.Prefix input = CompanyID dUser ++ "/") /\
      (forall input expire, In (CallPresign input expire) (trace (Part000.handleUser w (withCompanyID c user))) ->
                            s3.PutKey input = CompanyID dUser ++ "/" ++ FileRequest user).
Proof.
  intros w e1 e2 user c H1 H2. split; [|split].
  - unfold Part000.HandleRequest. rewrite H1, H2, handleUser_withCompanyID. reflexivity.
  - unfold MainGo.HandleRequest. rewrite H1, H2, MainGo_handleUser_withCompanyID. reflexivity.
  - intros item dUser Hg Hne Hu. split; [|split].
    + rewrite (validateUser_resolved w (withCompanyID c user) dUser item Hg Hne Hu).
      reflexivity.
    + rewrite handleUser_withCompanyID.
      destruct (handleUser_resolved_trace w user dUser item Hg Hne Hu) as (tail & -> & Ht).
      intros input Hin. cbn [In] in Hin.
      destruct Hin as [Hin|[Hin|[Hin|Hin]]]; try discriminate.
      * inversion Hin. reflexivity.
      * apply in_app_or in Hin. destruct Hin as [Hin|Hin].
        -- exfalso. revert Hin. generalize 0.
           induction (fst (ListPages w (Part000.inputparams w (Part000.enrich user dUser))))
             as [|p rest IH]; intros n Hin; cbn [pageLog In] in Hin; [assumption|].
           destruct Hin as [Hin|Hin]; [discriminate | eauto].
        -- destruct Ht as [-> | ->]; cbn [In] in Hin; [contradiction|].
           destruct Hin as [Hin|[Hin|[]]]; discriminate.
    + rewrite handleUser_withCompanyID.
      destruct (handleUser_resolved_trace w user dUser item Hg Hne Hu) as (tail & -> & Ht).
      intros input expire Hin. cbn [In] in Hin.
      destruct Hin as [Hin|[Hin|[Hin|Hin]]]; try discriminate.
      apply in_app_or in Hin. destruct Hin as [Hin|Hin].
      * exfalso. revert Hin. generalize 0.
        induction (fst (ListPages w (Part000.inputparams w (Part000.enrich user dUser))))
          as [|p rest IH]; intros n Hin; cbn [pageLog In] in Hin; [assumption|].
        destruct Hin as [Hin|Hin]; [discriminate | eauto].
      * destruct Ht as [-> | ->]; cbn [In] in Hin; [contradiction|].
        destruct Hin as [Hin|[Hin|[]]]; try discriminate.
        inversion Hin. reflexivity.
Qed.

Lemma company_id_is_not_trusted_witness :
  let w := Sample.world None (Sample.request 0 5000000) (Sample.record 0 true)
                        Sample.twoPages None in
  Part000.HandleRequest w Sample.event = Part000.HandleRequest w Sample.eventWithCompany.
Proof.
  intros w.
  exact (proj1 (company_id_is_not_trusted w Sample.event Sample.eventWithCompany
                  (Sample.request 0 5000000) "globex" eq_refl eq_refl)).
Defined.

(** ** Errors of the leaf collaborators *)

(** An error of the identity store lookup reaches the caller unmodified
    and ends the request. *)
Lemma GetItem_error_propagates (w : World) (event : events.APIGatewayProxyRequest)
      (user : User) (item : dynamodb.Item) (e : error) :
  NewSession w = None ->
  json_Unmarshal w (events.RequestBody event) = inr user ->
  GetItem w (Part000.getItemInput w user) = (item, Some e) ->
  Part000.HandleRequest w event
  = ((events.mkResponse 400 [] e, None),
     [CallNewSession; CallGetItem (Part000.getItemInput w user)]).
Proof.
  intros Hs Hj Hg.
  assert (Hv : Part000.validateUser w user
               = ((user, (false, Some e)), [CallGetItem (Part000.getItemInput w user)])).
  { unfold Part000.validateUser, bind, ret, emit. rewrite Hg. reflexivity. }
  rewrite (HandleRequest_parsed w event user Hs Hj).
  rewrite (handleUser_unauthorized w user user _ _ Hv). reflexivity.
Qed.

(** An error of the signing backend reaches the caller unmodified. *)
Lemma Presign_error_propagates (w : World) (user : User) (str : string) (e : error) :
  fst (snd (result (Part000.validateUser w user))) = true ->
  Presign w (Part000.putObjectInput (fst (result (Part000.validateUser w user))))
          Part000.expire = (str, Some e) ->
  result (Part000.handleUser w user) = (events.mkResponse 400 [] e, None).
Proof.
  unfold Part000.handleUser, Part000.signURLForUser, bind, ret, emit, result.
  destruct (Part000.validateUser w user) as [[user' [valid err]] t] eqn:Hv. cbn [fst snd].
  intros -> Hp. rewrite Hp.
  destruct err as [e'|]; cbn [negb orb fst snd].
  - exfalso. pose proof (validateUser_true_inv w user) as Hinv.
    unfold result in Hinv. rewrite Hv in Hinv.
    destruct (Hinv eq_refl) as (item & dUser & Hg & Hne & Hu & Hpd & Hr).
    rewrite (validateUser_resolved w user dUser item Hg Hne Hu) in Hv.
    unfold result in Hv. rewrite Hr, Hpd in Hv. discriminate.
  - reflexivity.
Qed.

(** C6.  The error of the usage enumeration is the exception: the value
    returned by [ListObjectsPages] is dropped by [calculateObjectSize].
    Here the listing request of a paid tier-0 account fails before any
    page is delivered; the usage is taken to be 0, the request for
    5,000,000 bytes is authorized, and the handler answers 200 with a
    signed URL. *)
Theorem listing_failure_is_swallowed :
  let w := Sample.world None (Sample.request 0 5000000) (Sample.record 0 true)
                        [] (Some "RequestError: send request failed") in
  let user := Part000.enrich (Sample.request 0 5000000) (Sample.record 0 true) in
  snd (result (ListObjectsPages Part000.pageCallback w (Part000.inputparams w user) (0, 0)))
  = Some "RequestError: send request failed" /\
  result (Part000.calculateObjectSize w user) = 0 /\
  result (Part000.verifyUserGrants w user) = (true, None) /\
  events.StatusCode (fst (result (Part000.HandleRequest w Sample.event))) = 200 /\
  In (CallPresign (Part000.putObjectInput user) Part000.expire)
     (trace (Part000.HandleRequest w Sample.event)).
Proof.
  cbv zeta. repeat split.
  vm_compute. right; right; right; right. left. reflexivity.
Qed.

(** ** The requested file size *)

(** C8, as the code has it.  [file_size] is not validated; it enters
    [totalSize + int64(FileSize)] as it comes.  A size above the ceiling of
    the account's tier is rejected by the quota comparison (400, nothing
    signed) when the usage is not negative and the sum is an [int64]; a
    negative size of a paid account of tier 0 or 2 whose usage is below the
    ceiling is authorized. *)
Theorem file_size_is_only_checked_by_quota :
  forall (w : World) (event : events.APIGatewayProxyRequest) (user dUser : User),
    resolves w (Part000.getItemInput w) event user dUser ->
    in_int64 (result (Part000.calculateObjectSize w (Part000.enrich user dUser))
              + FileSize user) ->
    (0 <= result (Part000.calculateObjectSize w (Part000.enrich user dUser)) ->
     Part000.maxSize (ServiceTier dUser) < FileSize user ->
     fst (snd (result (Part000.validateUser w user))) = false /\
     events.StatusCode (fst (result (Part000.HandleRequest w event))) = 400 /\
     neverSigned (trace (Part000.HandleRequest w event))) /\
    (FileSize user < 0 ->
     ServiceTier dUser = 0 \/ ServiceTier dUser = 2 ->
     Payed dUser = true ->
     result (Part000.calculateObjectSize w (Part000.enrich user dUser))
     < Part000.maxSize (ServiceTier dUser) ->
     result (Part000.validateUser w user) = (Part000.enrich user dUser, (true, None))).
Proof.
  intros w event user dUser (Hs & Hj & item & Hg & Hne & Hu) Hrange.
  pose proof (validateUser_resolved w user dUser item Hg Hne Hu) as Hv.
  pose proof (verifyUserGrants_neverSigned w (Part000.enrich user dUser)) as Hn.
  rewrite verifyUserGrants_eq in Hv, Hn.
  unfold result at 1 in Hv. unfold trace at 1 in Hv. unfold trace at 1 in Hn.
  cbn [fst snd] in Hv, Hn.
  change (ServiceTier (Part000.enrich user dUser)) with (ServiceTier dUser) in Hv.
  change (FileSize (Part000.enrich user dUser)) with (FileSize user) in Hv.
  rewrite (wrap64_id _ Hrange) in Hv.
  set (usage := result (Part000.calculateObjectSize w (Part000.enrich user dUser))) in *.
  split.
  - intros Hpos Hbig.
    assert (Hgt : (usage + FileSize user >? Part000.maxSize (ServiceTier dUser)) = true).
    { rewrite Z.gtb_ltb. apply Z.ltb_lt. lia. }
    rewrite Hgt, orb_true_r in Hv.
    rewrite (HandleRequest_parsed w event user Hs Hj).
    destruct ((ServiceTier dUser =? 0) || (ServiceTier dUser =? 2));
      rewrite (handleUser_unauthorized _ _ _ _ _ Hv), Hv;
      unfold result, trace; cbn [fst snd events.StatusCode]; repeat split; exact Hn.
  - intros Hneg Htier Hp Hlt.
    assert (Ht : (ServiceTier dUser =? 0) || (ServiceTier dUser =? 2) = true).
    { destruct Htier as [-> | ->]; reflexivity. }
    assert (Hge : (usage >=? Part000.maxSize (ServiceTier dUser)) = false).
    { rewrite Z.geb_leb. apply Z.leb_gt. lia. }
    assert (Hgt : (usage + FileSize user >? Part000.maxSize (ServiceTier dUser)) = false).
    { rewrite Z.gtb_ltb. apply Z.ltb_ge. lia. }
    rewrite Ht, Hge, Hgt, Hp in Hv. rewrite Hv. reflexivity.
Qed.

Lemma file_size_is_only_checked_by_quota_witness :
  let w := Sample.world None (Sample.request 0 10000001) (Sample.record 0 true)
                        Sample.twoPages None in
  events.StatusCode (fst (result (Part000.HandleRequest w Sample.event))) = 400 /\
  neverSigned (trace (Part000.HandleRequest w Sample.event)).
Proof.
  intros w.
  assert (Hr : resolves w (Part000.getItemInput w) Sample.event
                        (Sample.request 0 10000001) (Sample.record 0 true)).
  { repeat split. exists (Sample.itemOf (Sample.record 0 true)).
    repeat split. discriminate. }
  assert (Hi : in_int64 (result (Part000.calculateObjectSize w
                  (Part000.enrich (Sample.request 0 10000001) (Sample.record 0 true)))
                + FileSize (Sample.request 0 10000001))).
  { vm_compute. split; discriminate. }
  destruct (file_size_is_only_checked_by_quota w Sample.event _ _ Hr Hi) as (H & _).
  destruct H as (_ & H400 & Hn).
  - vm_compute. discriminate.
  - vm_compute. reflexivity.
  - split; assumption.
Defined.

(** C8, as stated, fails: a request with [file_size = -1] from a paid
    tier-0 account holding 6,000,000 bytes is answered 200 with a signed
    URL. *)
Lemma negative_file_size_is_signed :
  let w := Sample.world None (Sample.request 0 (-1)) (Sample.record 0 true)
                        Sample.twoPages None in
  let user := Part000.enrich (Sample.request 0 (-1)) (Sample.record 0 true) in
  json_Unmarshal w (events.RequestBody Sample.event) = inr (Sample.request 0 (-1)) /\
  FileSize user < 0 /\
  result (Part000.calculateObjectSize w user) = 6000000 /\
  events.StatusCode (fst (result (Part000.HandleRequest w Sample.event))) = 200 /\
  In (CallPresign (Part000.putObjectInput user) Part000.expire)
     (trace (Part000.HandleRequest w Sample.event)).
Proof.
  cbv zeta. repeat split.
  vm_compute. do 6 right. left. reflexivity.
Qed.

(** ** The quota rule *)

Lemma spec_ceiling_maxSize (tier : Z) : spec_ceiling tier = Part000.maxSize tier.
Proof. reflexivity. Qed.

(** On tiers 0 and 2, and as long as usage plus size is an [int64],
    [verifyUserGrants] of [part_000] decides as the uniform rule does. *)
Lemma verifyUserGrants_follows_rule_on_tiers_0_2 (w : World) (user : User) :
  ServiceTier user = 0 \/ ServiceTier user = 2 ->
  in_int64 (result (Part000.calculateObjectSize w user) + FileSize user) ->
  decisionOf (result (Part000.verifyUserGrants w user))
  = match spec_decide (ServiceTier user)
                      (result (Part000.calculateObjectSize w user)) (FileSize user) with
    | Allow => Allow
    | Deny _ => Deny Part000.exceeded
    end.
Proof.
  intros Htier Hrange. rewrite verifyUserGrants_eq. unfold result at 1. cbn [fst].
  rewrite (wrap64_id _ Hrange). unfold spec_decide.
  change (spec_ceiling (ServiceTier user)) with (Part000.maxSize (ServiceTier user)).
  assert (Ht : (ServiceTier user =? 0) || (ServiceTier user =? 2) = true).
  { destruct Htier as [-> | ->]; reflexivity. }
  rewrite Ht.
  destruct ((result (Part000.calculateObjectSize w user) >=? Part000.maxSize (ServiceTier user))
            || (result (Part000.calculateObjectSize w user) + FileSize user
                >? Part000.maxSize (ServiceTier user))); reflexivity.
Qed.

(** On every other tier it answers [(false, nil)], whatever the usage. *)
Lemma verifyUserGrants_other_tiers (w : World) (user : User) :
  ServiceTier user <> 0 ->
  ServiceTier user <> 2 ->
  result (Part000.verifyUserGrants w user) = (false, None).
Proof.
  intros H0 H2. rewrite verifyUserGrants_eq. unfold result at 1. cbn [fst].
  apply Z.eqb_neq in H0, H2. rewrite H0, H2. reflexivity.
Qed.

(** C1.  The rule is not uniform in the code.  For a paid account of
    tier 1 with no stored object and a request of 1 byte, the ceiling
    selected by [part_000] is 40,000,000,000 and the rule allows, but
    [verifyUserGrants] answers [(false, nil)]: a denial without reason.
    The same happens on the unrecognized tier 99, and, in [main.go], on
    tier 2. *)
Theorem verifyUserGrants_tier_1_denied :
  let w := Sample.world None (Sample.request 1 1) (Sample.record 1 true) [] None in
  let user := Part000.enrich (Sample.request 1 1) (Sample.record 1 true) in
  (ServiceTier user = 1 /\ FileSize user = 1 /\
   result (Part000.calculateObjectSize w user) = 0 /\
   Part000.maxSize (ServiceTier user) = 40000000000) /\
  (spec_decide 1 0 1 = Allow /\
   result (Part000.verifyUserGrants w user) = (false, None)) /\
  (spec_decide 99 0 1 = Allow /\
   result (Part000.verifyUserGrants w (withServiceTier 99 user)) = (false, None)) /\
  (spec_decide 2 0 1 = Allow /\
   result (MainGo.verifyUserGrants w (withServiceTier 2 user)) = (false, None)) /\
  events.Body (fst (result (Part000.HandleRequest w Sample.event))) = "Invalid User Request".
Proof.
  cbv zeta. repeat split.
Qed.

(** ** The two revisions *)

Lemma MainGo_verifyUserGrants_eq (w : World) (user : User) :
  result (MainGo.verifyUserGrants w user)
  = (let objects := fst (ListObjects w (MainGo.listObjectsInput user)) in
     let totalSize := wrap64 (sizeSum (s3.Contents objects)) in
     if ServiceTier user =? 0 then
       if FileSize user >? 10000000 then (false, Some "File size exceeded tier limit")
       else if Z.of_nat (length (s3.Contents objects)) >? 5
            then (false, Some "Number of files in tier exceeded")
            else (true, None)
     else if ServiceTier user =? 1 then
       if (totalSize >=? 42949672960) || (wrap64 (totalSize + FileSize user) >? 42949672960)
       then (false, Some "Maximum amount of stored data exceeded")
       else (true, None)
     else (false, None)).
Proof.
  unfold MainGo.verifyUserGrants, bind, ret, emit, result.
  destruct (ListObjects w (MainGo.listObjectsInput user)) as [objects err]. cbn [fst].
  rewrite totalSize_loop_0.
  repeat (split_path; cbn [fst snd]); reflexivity.
Qed.

(** C9.  The grant verifications of the two revisions differ: on some
    input one allows and the other denies.  [main.go] gates tier 0 by the
    size of the file and the number of objects, tier 1 by a ceiling of
    42,949,672,960 bytes of total usage, and always denies tier 2;
    [part_000] gates tiers 0 and 2 by ceilings on total usage and always
    denies tier 1. *)
Theorem revisions_disagree :
  (exists (w : World) (user : User),
      fst (result (MainGo.verifyUserGrants w user))
      <> fst (result (Part000.verifyUserGrants w user))) /\
  (forall (w : World) (user : User),
      result (MainGo.verifyUserGrants w (withServiceTier 0 user))
      = if FileSize user >? 10000000 then (false, Some "File size exceeded tier limit")
        else if Z.of_nat (length (s3.Contents (fst (ListObjects w (MainGo.listObjectsInput user))))) >? 5
             then (false, Some "Number of files in tier exceeded")
             else (true, None)) /\
  (forall (w : World) (user : User),
      result (MainGo.verifyUserGrants w (withServiceTier 1 user))
      = let totalSize :=
          wrap64 (sizeSum (s3.Contents (fst (ListObjects w (MainGo.listObjectsInput user))))) in
        if (totalSize >=? 42949672960) || (wrap64 (totalSize + FileSize user) >? 42949672960)
        then (false, Some "Maximum amount of stored data exceeded")
        else (true, None)) /\
  (forall (w : World) (user : User),
      result (MainGo.verifyUserGrants w (withServiceTier 2 user)) = (false, None)) /\
  (forall (w : World) (user : User),
      result (Part000.verifyUserGrants w (withServiceTier 0 user))
      = let totalSize := result (Part000.calculateObjectSize w user) in
        if (totalSize >=? 10000000) || (wrap64 (totalSize + FileSize user) >? 10000000)
        then (false, Some Part000.exceeded)
        else (true, None)) /\
  (forall (w : World) (user : User),
      result (Part000.verifyUserGrants w (withServiceTier 1 user)) = (false, None)) /\
  (forall (w : World) (user : User),
      result (Part000.verifyUserGrants w (withServiceTier 2 user))
      = let totalSize := result (Part000.calculateObjectSize w user) in
        if (totalSize >=? 1000000000000) || (wrap64 (totalSize + FileSize user) >? 1000000000000)
        then (false, Some Part000.exceeded)
        else (true, None)).
Proof.
  repeat apply conj.
  - exists (Sample.world None (Sample.request 2 1) (Sample.record 2 true) [] None),
           (Part000.enrich (Sample.request 2 1) (Sample.record 2 true)).
    vm_compute. discriminate.
  - intros w user. rewrite MainGo_verifyUserGrants_eq. reflexivity.
  - intros w user. rewrite MainGo_verifyUserGrants_eq. reflexivity.
  - intros w user. rewrite MainGo_verifyUserGrants_eq. reflexivity.
  - intros w user. rewrite verifyUserGrants_eq. reflexivity.
  - intros w user. rewrite verifyUserGrants_eq. reflexivity.
  - intros w user. rewrite verifyUserGrants_eq. reflexivity.
Qed.

(** The revision [main.go] does not consult [payed] at all: there the
    handler signs for an unpaid account whose stored [sub] matches. *)
Lemma MainGo_unpaid_is_signed :
  events.StatusCode
    (fst (result (MainGo.HandleRequest
                    (Sample.world None (Sample.request 2 1) (Sample.record 2 false) [] None)
                    Sample.event))) = 200.
Proof. reflexivity. Qed.

(** * Further properties of the handler *)

(** ** Malformed payloads *)

Lemma HandleRequest_unparsed (w : World) (event : events.APIGatewayProxyRequest) (e : error) :
  NewSession w = None ->
  json_Unmarshal w (events.RequestBody event) = inl e ->
  Part000.HandleRequest w event = ((events.mkResponse 400 [] e, None), [CallNewSession]).
Proof.
  intros Hs Hj. unfold_handler. rewrite Hs, Hj. reflexivity.
Qed.

(** A payload that [json.Unmarshal] rejects is answered 400 with the
    parse error as body, and no backend is called after the session is
    built, in both revisions. *)
Theorem malformed_payload_is_rejected :
  forall (w : World) (event : events.APIGatewayProxyRequest) (e : error),
    NewSession w = None ->
    json_Unmarshal w (events.RequestBody event) = inl e ->
    Part000.HandleRequest w event = ((events.mkResponse 400 [] e, None), [CallNewSession]) /\
    MainGo.HandleRequest w event = ((events.mkResponse 400 [] e, None), [CallNewSession]).
Proof.
  intros w event e Hs Hj. unfold_handler. rewrite Hs, Hj. split; reflexivity.
Qed.

Lemma malformed_payload_is_rejected_witness :
  Part000.HandleRequest
    (Sample.world None (Sample.request 0 1) (Sample.record 0 true) [] None)
    (events.mkRequest "{")
  = ((events.mkResponse 400 [] "unexpected end of JSON input", None), [CallNewSession]).
Proof.
  exact (proj1 (malformed_payload_is_rejected
                  (Sample.world None (Sample.request 0 1) (Sample.record 0 true) [] None)
                  (events.mkRequest "{") "unexpected end of JSON input" eq_refl eq_refl)).
Defined.

(** ** Signing *)

Lemma string_eqb_empty (s : string) : s <> "" -> (s =? "")%string = false.
Proof.
  intros H. now apply String.eqb_neq.
Qed.

(** What [handleUser] does after a successful authorization. *)
Lemma handleUser_authorized (w : World) (user user' : User) (t : list Event) :
  Part000.validateUser w user = ((user', (true, None)), t) ->
  Part000.handleUser w user
  = (let url := fst (result (Part000.signURLForUser w user')) in
     let err := snd (result (Part000.signURLForUser w user')) in
     (match err with
      | Some e => events.mkResponse 400 [] e
      | None =>
          if (url =? "")%string then events.mkResponse 400 [] "Unable to sign URL"
          else match json_Marshal w (mkURLSign url) with
               | (_, Some e) => events.mkResponse 400 [] e
               | (data, None) => events.mkResponse 200 Part000.headers data
               end
      end, None),
     (t ++ [CallPresign (Part000.putObjectInput user') Part000.expire;
            LogSignedURL (fst (result (Part000.signURLForUser w user')))])%list).
Proof.
  intros Hv. unfold Part000.handleUser, bind. rewrite Hv.
  unfold Part000.signURLForUser, bind, ret, emit, result.
  destruct (Presign w (Part000.putObjectInput user') Part000.expire) as [str [e|]];
    cbn [negb orb fst snd app].
  - rewrite orb_true_r. reflexivity.
  - rewrite orb_false_r. destruct (str =? "")%string; [reflexivity|].
    destruct (json_Marshal w (mkURLSign str)) as [data [e|]]; reflexivity.
Qed.

(** A paid account whose quota check passes gets, when the signing
    backend returns a non-empty URL and the encoder succeeds, status 200,
    the CORS headers and the encoded URL; the backends are called in the
    order lookup, listing, signing, each once. *)
Theorem authorized_request_is_signed :
  forall (w : World) (event : events.APIGatewayProxyRequest) (user dUser : User)
         (url data : string),
    resolves w (Part000.getItemInput w) event user dUser ->
    Payed dUser = true ->
    result (Part000.verifyUserGrants w (Part000.enrich user dUser)) = (true, None) ->
    Presign w (Part000.putObjectInput (Part000.enrich user dUser)) Part000.expire
    = (url, None) ->
    url <> "" ->
    json_Marshal w (mkURLSign url) = (data, None) ->
    Part000.HandleRequest w event
    = ((events.mkResponse 200 Part000.headers data, None),
       (CallNewSession
          :: CallGetItem (Part000.getItemInput w user)
          :: LogUser (Part000.enrich user dUser)
          :: CallListObjectsPages (Part000.inputparams w (Part000.enrich user dUser))
          :: pageLog 0 (fst (ListPages w (Part000.inputparams w (Part000.enrich user dUser))))
          ++ [CallPresign (Part000.putObjectInput (Part000.enrich user dUser)) Part000.expire;
              LogSignedURL url])%list).
Proof.
  intros w event user dUser url data (Hs & Hj & item & Hg & Hne & Hu) Hp Hr Hsign Hurl Hm.
  pose proof (validateUser_resolved w user dUser item Hg Hne Hu) as Hv.
  rewrite Hr, Hp in Hv. cbn [andb] in Hv.
  rewrite (HandleRequest_parsed w event user Hs Hj).
  rewrite (handleUser_authorized _ _ _ _ Hv).
  rewrite verifyUserGrants_eq. unfold trace at 2. cbn [snd].
  rewrite calculateObjectSize_eq.
  unfold Part000.signURLForUser, bind, ret, emit, result, trace. rewrite Hsign.
  cbn [fst snd]. rewrite (string_eqb_empty _ Hurl), Hm. reflexivity.
Qed.

Lemma authorized_request_is_signed_witness :
  let w := Sample.world None (Sample.request 0 5000000) (Sample.record 0 true) [] None in
  events.StatusCode (fst (result (Part000.HandleRequest w Sample.event))) = 200 /\
  events.Headers (fst (result (Part000.HandleRequest w Sample.event))) = Part000.headers.
Proof.
  intros w.
  assert (Hr : resolves w (Part000.getItemInput w) Sample.event
                        (Sample.request 0 5000000) (Sample.record 0 true)).
  { repeat split. exists (Sample.itemOf (Sample.record 0 true)).
    repeat split. discriminate. }
  rewrite (authorized_request_is_signed w Sample.event _ _ _ _ Hr eq_refl eq_refl eq_refl
             ltac:(discriminate) eq_refl).
  split; reflexivity.
Defined.

(** Status 200 is answered only on that path: the subject resolved to a
    paid record, the quota check passed, the signing backend returned a
    non-empty URL without error, and the body is the encoding of that URL. *)
Theorem success_only_if_authorized_and_signed :
  forall (w : World) (event : events.APIGatewayProxyRequest),
    events.StatusCode (fst (result (Part000.HandleRequest w event))) = 200 ->
    exists (user dUser : User) (url data : string),
      resolves w (Part000.getItemInput w) event user dUser /\
      Payed dUser = true /\
      result (Part000.verifyUserGrants w (Part000.enrich user dUser)) = (true, None) /\
      Presign w (Part000.putObjectInput (Part000.enrich user dUser)) Part000.expire
      = (url, None) /\
      url <> "" /\
      json_Marshal w (mkURLSign url) = (data, None) /\
      fst (result (Part000.HandleRequest w event))
      = events.mkResponse 200 Part000.headers data.
Proof.
  intros w event.
  destruct (NewSession w) as [e|] eqn:Hs.
  { rewrite (proj1 (HandleRequest_status_without_session w event e Hs)). discriminate. }
  destruct (json_Unmarshal w (events.RequestBody event)) as [e|user] eqn:Hj.
  { rewrite (HandleRequest_unparsed w event e Hs Hj). discriminate. }
  rewrite (HandleRequest_parsed w event user Hs Hj). unfold result at 1. cbn [fst].
  intros H200.
  destruct (validateUser_true_inv w user (handleUser_status_200_inv w user H200))
    as (item & dUser & Hg & Hne & Hu & Hp & Hr).
  pose proof (validateUser_resolved w user dUser item Hg Hne Hu) as Hv.
  rewrite Hr, Hp in Hv. cbn [andb] in Hv.
  rewrite (handleUser_authorized _ _ _ _ Hv) in H200 |- *.
  unfold result at 1 in H200. unfold result at 1. cbn [fst] in H200 |- *.
  unfold Part000.signURLForUser, bind, ret, emit, result in H200 |- *.
  destruct (Presign w (Part000.putObjectInput (Part000.enrich user dUser)) Part000.expire)
    as [url [e|]] eqn:Hsign; cbn [fst snd] in H200 |- *; [discriminate|].
  destruct (url =? "")%string eqn:Hurl; [discriminate|].
  destruct (json_Marshal w (mkURLSign url)) as [data [e|]] eqn:Hm; [discriminate|].
  exists user, dUser, url, data. repeat split; auto.
  - exists item. auto.
  - now apply String.eqb_neq.
Qed.

Lemma success_only_if_authorized_and_signed_witness :
  exists (user dUser : User) (url data : string),
    Payed dUser = true /\ url <> "" /\
    Presign (Sample.world None (Sample.request 0 5000000) (Sample.record 0 true) [] None)
            (Part000.putObjectInput (Part000.enrich user dUser)) Part000.expire
    = (url, None).
Proof.
  destruct (success_only_if_authorized_and_signed
              (Sample.world None (Sample.request 0 5000000) (Sample.record 0 true) [] None)
              Sample.event eq_refl)
    as (user & dUser & url & data & _ & Hp & _ & Hsign & Hurl & _).
  exists user, dUser, url, data. auto.
Defined.

Lemma validateUser_neverSigned (w : World) (user : User) :
  neverSigned (trace (Part000.validateUser w user)).
Proof.
  pose proof (verifyUserGrants_neverSigned w) as Hn.
  unfold Part000.validateUser, bind, ret, emit, trace, neverSigned in *.
  destruct (GetItem w (Part000.getItemInput w user)) as [item [e|]]; [reflexivity|].
  destruct (Z.of_nat (length item) =? 0); [reflexivity|].
  destruct (UnmarshalMap w item) as [e|dUser]; [reflexivity|].
  specialize (Hn (Part000.enrich user dUser)).
  destruct (Part000.verifyUserGrants w (Part000.enrich user dUser)) as [[grants [e|]] t];
    cbn [fst snd app existsb isPresign orb] in *.
  - rewrite app_nil_r. exact Hn.
  - destruct (grants && Payed (Part000.enrich user dUser)); cbn [snd];
      rewrite app_nil_r; exact Hn.
Qed.

Lemma neverSigned_filter (t : list Event) :
  neverSigned t -> filter isPresign t = [].
Proof.
  unfold neverSigned. induction t as [|e t IH]; [reflexivity|].
  cbn [existsb filter]. destruct (isPresign e); cbn [orb]; [discriminate | exact IH].
Qed.

(** The signing backend is called at most once per request, and only
    after [validateUser] answered [(true, nil)] for the parsed request. *)
Theorem signs_only_when_authorized :
  forall (w : World) (event : events.APIGatewayProxyRequest),
    (length (filter isPresign (trace (Part000.HandleRequest w event))) <= 1)%nat /\
    (~ neverSigned (trace (Part000.HandleRequest w event)) ->
     exists user,
       json_Unmarshal w (events.RequestBody event) = inr user /\
       snd (result (Part000.validateUser w user)) = (true, None)).
Proof.
  intros w event.
  destruct (NewSession w) as [e|] eqn:Hs.
  { rewrite (proj1 (HandleRequest_status_without_session w event e Hs)).
    unfold trace. cbn. split; [lia | intros H; exfalso; apply H; reflexivity]. }
  destruct (json_Unmarshal w (events.RequestBody event)) as [e|user] eqn:Hj.
  { rewrite (HandleRequest_unparsed w event e Hs Hj).
    unfold trace. cbn. split; [lia | intros H; exfalso; apply H; reflexivity]. }
  rewrite (HandleRequest_parsed w event user Hs Hj).
  pose proof (validateUser_neverSigned w user) as Hn.
  destruct (Part000.validateUser w user) as [[user' [valid err]] t] eqn:Hv.
  unfold trace at 1 in Hn. cbn [snd] in Hn.
  assert (Hdenied : valid = false \/ err <> None ->
                    trace (Part000.handleUser w user) = t).
  { intros Hd. unfold Part000.handleUser, bind, ret, trace. rewrite Hv.
    destruct valid, err; cbn [negb orb snd]; rewrite ?app_nil_r; try reflexivity.
    destruct Hd; congruence. }
  destruct valid; [destruct err as [e|]|].
  - rewrite Hdenied by (right; discriminate).
    unfold trace, neverSigned. cbn [snd filter existsb isPresign orb].
    rewrite (neverSigned_filter _ Hn). split; [cbn; lia | intros H; contradiction].
  - rewrite (handleUser_authorized _ _ _ _ Hv). unfold trace. cbn [snd].
    cbn [filter isPresign]. rewrite filter_app, (neverSigned_filter _ Hn).
    split; [cbn; lia|]. intros _. exists user.
    split; [reflexivity | rewrite Hv; reflexivity].
  - rewrite Hdenied by (left; reflexivity).
    unfold trace, neverSigned. cbn [snd filter existsb isPresign orb].
    rewrite (neverSigned_filter _ Hn). split; [cbn; lia | intros H; contradiction].
Qed.

(** ** What the client cannot choose *)

Lemma handleUser_client_entitlement (w : World) (b : bool) (tier : Z) (user : User) :
  Part000.handleUser w (withPayed b (withServiceTier tier user)) = Part000.handleUser w user.
Proof.
  unfold Part000.handleUser, Part000.validateUser.
  change (Part000.getItemInput w (withPayed b (withServiceTier tier user)))
    with (Part000.getItemInput w user).
  unfold bind, ret, emit.
  destruct (GetItem w (Part000.getItemInput w user)) as [item [e|]]; [reflexivity|].
  destruct (Z.of_nat (length item) =? 0); [reflexivity|].
  destruct (UnmarshalMap w item) as [e|dUser]; [reflexivity|].
  change (Part000.enrich (withPayed b (withServiceTier tier user)) dUser)
    with (Part000.enrich user dUser).
  reflexivity.
Qed.

Lemma MainGo_handleUser_client_entitlement (w : World) (b : bool) (tier : Z) (user : User) :
  MainGo.handleUser w (withPayed b (withServiceTier tier user)) = MainGo.handleUser w user.
Proof.
  unfold MainGo.handleUser, MainGo.validateUser.
  change (MainGo.getItemInput w (withPayed b (withServiceTier tier user)))
    with (MainGo.getItemInput w user).
  change (Sub (withPayed b (withServiceTier tier user))) with (Sub user).
  unfold bind, ret, emit.
  destruct (GetItem w (MainGo.getItemInput w user)) as [item [e|]]; [reflexivity|].
  destruct (Z.of_nat (length item) =? 0); [reflexivity|].
  destruct (UnmarshalMap w item) as [e|dUser]; [reflexivity|].
  change (MainGo.enrich (withPayed b (withServiceTier tier user)) dUser)
    with (MainGo.enrich user dUser).
  destruct (Sub dUser =? Sub user)%string; reflexivity.
Qed.

(** The [payed] and [service_tier] fields of the payload are never
    consulted: two requests that differ only in them get the same
    response and cause the same backend calls and log lines, in both
    revisions. *)
Theorem client_entitlement_is_not_trusted :
  forall (w : World) (e1 e2 : events.APIGatewayProxyRequest) (user : User)
         (b : bool) (tier : Z),
    json_Unmarshal w (events.RequestBody e1) = inr user ->
    json_Unmarshal w (events.RequestBody e2) = inr (withPayed b (withServiceTier tier user)) ->
    Part000.HandleRequest w e1 = Part000.HandleRequest w e2 /\
    MainGo.HandleRequest w e1 = MainGo.HandleRequest w e2.
Proof.
  intros w e1 e2 user b tier H1 H2. split.
  - unfold Part000.HandleRequest. rewrite H1, H2, handleUser_client_entitlement. reflexivity.
  - unfold MainGo.HandleRequest. rewrite H1, H2, MainGo_handleUser_client_entitlement.
    reflexivity.
Qed.

Lemma client_entitlement_is_not_trusted_witness :
  let w := Sample.withParser (Sample.parseUpgraded (Sample.request 1 5000000))
             (Sample.world None (Sample.request 1 5000000) (Sample.record 0 true) [] None) in
  Part000.HandleRequest w (events.mkRequest "plain")
  = Part000.HandleRequest w (events.mkRequest "upgraded").
Proof.
  intros w.
  exact (proj1 (client_entitlement_is_not_trusted w (events.mkRequest "plain")
                  (events.mkRequest "upgraded") (Sample.request 1 5000000)
                  true 2 eq_refl eq_refl)).
Defined.

Lemma signs_only_when_authorized_witness :
  exists user,
    json_Unmarshal (Sample.world None (Sample.request 0 5000000) (Sample.record 0 true) [] None)
                   (events.RequestBody Sample.event) = inr user /\
    snd (result (Part000.validateUser
                   (Sample.world None (Sample.request 0 5000000) (Sample.record 0 true) [] None)
                   user)) = (true, None).
Proof.
  apply (proj2 (signs_only_when_authorized
                  (Sample.world None (Sample.request 0 5000000) (Sample.record 0 true) [] None)
                  Sample.event)).
  vm_compute. discriminate.
Defined.

(** ** The revision [main.go] *)

Lemma MainGo_HandleRequest_parsed (w : World) (event : events.APIGatewayProxyRequest)
      (user : User) :
  NewSession w = None ->
  json_Unmarshal w (events.RequestBody event) = inr user ->
  MainGo.HandleRequest w event
  = (result (MainGo.handleUser w user), CallNewSession :: trace (MainGo.handleUser w user)).
Proof.
  intros Hs Hj. unfold MainGo.HandleRequest, bind, emit, result, trace.
  rewrite Hs, Hj. destruct (MainGo.handleUser w user). reflexivity.
Qed.

(** In [main.go] a record whose stored [sub] differs from the request's
    is refused with "User invalid", and nothing is signed. *)
Theorem MainGo_sub_mismatch_is_rejected :
  forall (w : World) (event : events.APIGatewayProxyRequest) (user dUser : User),
    resolves w (MainGo.getItemInput w) event user dUser ->
    Sub dUser <> Sub user ->
    MainGo.HandleRequest w event
    = ((events.mkResponse 400 [] "User invalid", None),
       [CallNewSession; CallGetItem (MainGo.getItemInput w user)]).
Proof.
  intros w event user dUser (Hs & Hj & item & Hg & Hne & Hu) Hsub.
  rewrite (MainGo_HandleRequest_parsed w event user Hs Hj).
  unfold MainGo.handleUser, MainGo.validateUser, bind, ret, emit, result, trace.
  rewrite Hg, (len_nonempty _ Hne), Hu.
  apply String.eqb_neq in Hsub. rewrite Hsub. reflexivity.
Qed.

Lemma MainGo_sub_mismatch_is_rejected_witness :
  let w := Sample.withStore (fun _ => (Sample.itemOf Sample.stranger, None))
                            (fun _ => inr Sample.stranger)
             (Sample.world None (Sample.request 0 1) (Sample.record 0 true) [] None) in
  MainGo.HandleRequest w Sample.event
  = ((events.mkResponse 400 [] "User invalid", None),
     [CallNewSession; CallGetItem (MainGo.getItemInput w (Sample.request 0 1))]).
Proof.
  intros w.
  apply (MainGo_sub_mismatch_is_rejected w Sample.event (Sample.request 0 1) Sample.stranger).
  - repeat split. exists (Sample.itemOf Sample.stranger). repeat split. discriminate.
  - discriminate.
Defined.

(** In [main.go] a matching [sub] is all that authorization asks for:
    whatever the record's [payed] and tier, the stored usage and the
    requested size, the handler goes from the lookup straight to signing
    (for five minutes) and answers 200 with the encoded URL, without
    headers. *)
Theorem MainGo_sub_match_is_signed :
  forall (w : World) (event : events.APIGatewayProxyRequest) (user dUser : User)
         (url data : string),
    resolves w (MainGo.getItemInput w) event user dUser ->
    Sub dUser = Sub user ->
    Presign w (MainGo.putObjectInput (MainGo.enrich user dUser)) (5 * Minute)
    = (url, None) ->
    url <> "" ->
    json_Marshal w (mkURLSign url) = (data, None) ->
    MainGo.HandleRequest w event
    = ((events.mkResponse 200 [] data, None),
       [CallNewSession;
        CallGetItem (MainGo.getItemInput w user);
        CallPresign (MainGo.putObjectInput (MainGo.enrich user dUser)) (5 * Minute)]).
Proof.
  intros w event user dUser url data (Hs & Hj & item & Hg & Hne & Hu) Hsub Hsign Hurl Hm.
  rewrite (MainGo_HandleRequest_parsed w event user Hs Hj).
  unfold MainGo.handleUser, MainGo.validateUser, MainGo.signURLForUser,
    bind, ret, emit, result, trace.
  rewrite Hg, (len_nonempty _ Hne), Hu.
  apply String.eqb_eq in Hsub. rewrite Hsub. cbn [negb orb fst snd].
  change MainGo.expire with (5 * Minute). rewrite Hsign. cbn [fst snd orb].
  rewrite (string_eqb_empty _ Hurl). cbn [orb]. rewrite Hm. reflexivity.
Qed.

Lemma MainGo_sub_match_is_signed_witness :
  let w := Sample.world None (Sample.request 2 1) (Sample.record 2 false)
                        Sample.twoPages None in
  events.StatusCode (fst (result (MainGo.HandleRequest w Sample.event))) = 200.
Proof.
  intros w.
  assert (Hr : resolves w (MainGo.getItemInput w) Sample.event
                        (Sample.request 2 1) (Sample.record 2 false)).
  { repeat split. exists (Sample.itemOf (Sample.record 2 false)).
    repeat split. discriminate. }
  rewrite (MainGo_sub_match_is_signed w Sample.event _ _ _ _ Hr eq_refl eq_refl
             ltac:(discriminate) eq_refl).
  reflexivity.
Defined.

(** The handler of [main.go] never lists the bucket: its
    [verifyUserGrants] is not on any path of [HandleRequest]. *)
Theorem MainGo_never_lists :
  forall (w : World) (event : events.APIGatewayProxyRequest),
    existsb isListing (trace (MainGo.HandleRequest w event)) = false.
Proof.
  intros w event. handler_paths; reflexivity.
Qed.

(** ** Failures after the lookup *)

(** A stored record that does not decode is answered 400 with the
    decoder's message; the bucket is not listed and nothing is signed. *)
Theorem undecodable_record_is_rejected :
  forall (w : World) (event : events.APIGatewayProxyRequest) (user : User)
         (item : dynamodb.Item) (e : error),
    NewSession w = None ->
    json_Unmarshal w (events.RequestBody event) = inr user ->
    GetItem w (Part000.getItemInput w user) = (item, None) ->
    item <> [] ->
    UnmarshalMap w item = inl e ->
    Part000.HandleRequest w event
    = ((events.mkResponse 400 [] e, None),
       [CallNewSession; CallGetItem (Part000.getItemInput w user)]).
Proof.
  intros w event user item e Hs Hj Hg Hne Hu.
  assert (Hv : Part000.validateUser w user
               = ((user, (false, Some e)), [CallGetItem (Part000.getItemInput w user)])).
  { unfold Part000.validateUser, bind, ret, emit.
    rewrite Hg, (len_nonempty _ Hne), Hu. reflexivity. }
  rewrite (HandleRequest_parsed w event user Hs Hj).
  rewrite (handleUser_unauthorized w user user _ _ Hv). reflexivity.
Qed.

Lemma undecodable_record_is_rejected_witness :
  let w := Sample.withStore (Sample.getItem (Sample.record 0 true))
                            (fun _ => inl "UnmarshalTypeError: cannot unmarshal string into Go value of type int")
             (Sample.world None (Sample.request 0 1) (Sample.record 0 true) [] None) in
  Part000.HandleRequest w Sample.event
  = ((events.mkResponse 400 []
        "UnmarshalTypeError: cannot unmarshal string into Go value of type int", None),
     [CallNewSession; CallGetItem (Part000.getItemInput w (Sample.request 0 1))]).
Proof.
  intros w.
  apply (undecodable_record_is_rejected w Sample.event (Sample.request 0 1)
           (Sample.itemOf (Sample.record 0 true))); try reflexivity.
  discriminate.
Defined.

(** After a successful authorization, an error of the signing backend is
    answered 400 with its message, and an empty URL without error is
    answered 400 "Unable to sign URL"; in both cases the "Signed URL"
    log line carries an empty URL and the encoder is not reached. *)
Theorem unsigned_url_is_reported :
  forall (w : World) (event : events.APIGatewayProxyRequest) (user user' : User)
         (t : list Event) (str : string),
    NewSession w = None ->
    json_Unmarshal w (events.RequestBody event) = inr user ->
    Part000.validateUser w user = ((user', (true, None)), t) ->
    (forall e : error,
        Presign w (Part000.putObjectInput user') Part000.expire = (str, Some e) ->
        Part000.HandleRequest w event
        = ((events.mkResponse 400 [] e, None),
           (CallNewSession :: t
              ++ [CallPresign (Part000.putObjectInput user') Part000.expire;
                  LogSignedURL ""])%list)) /\
    (Presign w (Part000.putObjectInput user') Part000.expire = ("", None) ->
     Part000.HandleRequest w event
     = ((events.mkResponse 400 [] "Unable to sign URL", None),
        (CallNewSession :: t
           ++ [CallPresign (Part000.putObjectInput user') Part000.expire;
               LogSignedURL ""])%list)).
Proof.
  intros w event user user' t str Hs Hj Hv. split.
  - intros e Hp. rewrite (HandleRequest_parsed w event user Hs Hj).
    rewrite (handleUser_authorized _ _ _ _ Hv).
    unfold Part000.signURLForUser, bind, ret, emit, result, trace. rewrite Hp. reflexivity.
  - intros Hp. rewrite (HandleRequest_parsed w event user Hs Hj).
    rewrite (handleUser_authorized _ _ _ _ Hv).
    unfold Part000.signURLForUser, bind, ret, emit, result, trace. rewrite Hp. reflexivity.
Qed.

Lemma unsigned_url_is_reported_witness :
  let w := Sample.withPresign (fun _ _ => ("https://partial", Some "NoCredentialProviders: no valid providers in chain"))
             (Sample.world None (Sample.request 0 1) (Sample.record 0 true) [] None) in
  events.Body (fst (result (Part000.HandleRequest w Sample.event)))
  = "NoCredentialProviders: no valid providers in chain".
Proof.
  intros w.
  destruct (unsigned_url_is_reported w Sample.event (Sample.request 0 1)
              (Part000.enrich (Sample.request 0 1) (Sample.record 0 true))
              (trace (Part000.validateUser w (Sample.request 0 1)))
              "https://partial" eq_refl eq_refl eq_refl) as (H & _).
  rewrite (H "NoCredentialProviders: no valid providers in chain" eq_refl).
  reflexivity.
Defined.

(** When the encoder fails after signing, the answer is 400 with the
    encoder's message: the URL has been issued by the backend and written
    to the log, but is not returned. *)
Theorem encoding_failure_after_signing :
  forall (w : World) (event : events.APIGatewayProxyRequest) (user user' : User)
         (t : list Event) (url data : string) (e : error),
    NewSession w = None ->
    json_Unmarshal w (events.RequestBody event) = inr user ->
    Part000.validateUser w user = ((user', (true, None)), t) ->
    Presign w (Part000.putObjectInput user') Part000.expire = (url, None) ->
    url <> "" ->
    json_Marshal w (mkURLSign url) = (data, Some e) ->
    Part000.HandleRequest w event
    = ((events.mkResponse 400 [] e, None),
       (CallNewSession :: t
          ++ [CallPresign (Part000.putObjectInput user') Part000.expire;
              LogSignedURL url])%list).
Proof.
  intros w event user user' t url data e Hs Hj Hv Hp Hurl Hm.
  rewrite (HandleRequest_parsed w event user Hs Hj).
  rewrite (handleUser_authorized _ _ _ _ Hv).
  unfold Part000.signURLForUser, bind, ret, emit, result, trace. rewrite Hp.
  cbn [fst snd]. rewrite (string_eqb_empty _ Hurl), Hm. reflexivity.
Qed.

Lemma encoding_failure_after_signing_witness :
  let w := Sample.withMarshal (fun _ => ("", Some "json: unsupported value"))
             (Sample.world None (Sample.request 0 1) (Sample.record 0 true) [] None) in
  events.Body (fst (result (Part000.HandleRequest w Sample.event))) = "json: unsupported value" /\
  ~ neverSigned (trace (Part000.HandleRequest w Sample.event)).
Proof.
  intros w.
  rewrite (encoding_failure_after_signing w Sample.event (Sample.request 0 1)
             (Part000.enrich (Sample.request 0 1) (Sample.record 0 true))
             (trace (Part000.validateUser w (Sample.request 0 1)))
             (fst (Sample.presign (Part000.putObjectInput
                                     (Part000.enrich (Sample.request 0 1) (Sample.record 0 true)))
                                  Part000.expire))
             "" "json: unsupported value"
             eq_refl eq_refl eq_refl eq_refl ltac:(discriminate) eq_refl).
  split; [reflexivity | vm_compute; discriminate].
Defined.

(** ** The quota at the handler *)

(** On tiers 0 and 2, when the usage has reached the ceiling or usage
    plus size exceeds it (the sum being an [int64]), the handler answers
    400 with the quota message, whether the account is paid or not, and
    nothing is signed. *)
Theorem quota_exceeded_is_reported :
  forall (w : World) (event : events.APIGatewayProxyRequest) (user dUser : User),
    resolves w (Part000.getItemInput w) event user dUser ->
    ServiceTier dUser = 0 \/ ServiceTier dUser = 2 ->
    in_int64 (result (Part000.calculateObjectSize w (Part000.enrich user dUser))
              + FileSize user) ->
    Part000.maxSize (ServiceTier dUser)
    <= result (Part000.calculateObjectSize w (Part000.enrich user dUser)) \/
    Part000.maxSize (ServiceTier dUser)
    < result (Part000.calculateObjectSize w (Part000.enrich user dUser)) + FileSize user ->
    fst (result (Part000.HandleRequest w event))
    = events.mkResponse 400 [] "Maximum amount of stored data exceeded" /\
    neverSigned (trace (Part000.HandleRequest w event)).
Proof.
  intros w event user dUser (Hs & Hj & item & Hg & Hne & Hu) Htier Hrange Hover.
  pose proof (validateUser_resolved w user dUser item Hg Hne Hu) as Hv.
  pose proof (verifyUserGrants_neverSigned w (Part000.enrich user dUser)) as Hn.
  rewrite verifyUserGrants_eq in Hv, Hn.
  unfold result at 1 in Hv. unfold trace at 1 in Hv. unfold trace at 1 in Hn.
  cbn [fst snd] in Hv, Hn.
  change (ServiceTier (Part000.enrich user dUser)) with (ServiceTier dUser) in Hv.
  change (FileSize (Part000.enrich user dUser)) with (FileSize user) in Hv.
  rewrite (wrap64_id _ Hrange) in Hv.
  set (usage := result (Part000.calculateObjectSize w (Part000.enrich user dUser))) in *.
  assert (Ht : (ServiceTier dUser =? 0) || (ServiceTier dUser =? 2) = true).
  { destruct Htier as [-> | ->]; reflexivity. }
  assert (Hc : (usage >=? Part000.maxSize (ServiceTier dUser))
               || (usage + FileSize user >? Part000.maxSize (ServiceTier dUser)) = true).
  { apply orb_true_iff. rewrite Z.geb_leb, Z.gtb_ltb, Z.leb_le, Z.ltb_lt. exact Hover. }
  rewrite Ht, Hc in Hv.
  rewrite (HandleRequest_parsed w event user Hs Hj).
  rewrite (handleUser_unauthorized _ _ _ _ _ Hv).
  unfold result, trace. cbn [fst snd]. split; [reflexivity | exact Hn].
Qed.

Lemma quota_exceeded_is_reported_witness :
  let w := Sample.world None (Sample.request 0 2) (Sample.record 0 true)
             [s3.mkListObjectsOutput [Sample.object 9999999]] None in
  fst (result (Part000.HandleRequest w Sample.event))
  = events.mkResponse 400 [] "Maximum amount of stored data exceeded".
Proof.
  intros w.
  assert (Hr : resolves w (Part000.getItemInput w) Sample.event
                        (Sample.request 0 2) (Sample.record 0 true)).
  { repeat split. exists (Sample.itemOf (Sample.record 0 true)).
    repeat split. discriminate. }
  apply (quota_exceeded_is_reported w Sample.event _ _ Hr).
  - left. reflexivity.
  - vm_compute. split; discriminate.
  - right. vm_compute. reflexivity.
Defined.

(** An account of any tier other than 0 and 2 is always answered 400
    "Invalid User Request", whatever its usage, the requested size and its
    [payed] flag; the bucket is listed all the same, and nothing is
    signed. *)
Theorem other_tiers_cannot_upload :
  forall (w : World) (event : events.APIGatewayProxyRequest) (user dUser : User),
    resolves w (Part000.getItemInput w) event user dUser ->
    ServiceTier dUser <> 0 ->
    ServiceTier dUser <> 2 ->
    Part000.HandleRequest w event
    = ((events.mkResponse 400 [] "Invalid User Request", None),
       CallNewSession
         :: CallGetItem (Part000.getItemInput w user)
         :: LogUser (Part000.enrich user dUser)
         :: CallListObjectsPages (Part000.inputparams w (Part000.enrich user dUser))
         :: pageLog 0 (fst (ListPages w (Part000.inputparams w (Part000.enrich user dUser))))).
Proof.
  intros w event user dUser (Hs & Hj & item & Hg & Hne & Hu) H0 H2.
  pose proof (validateUser_resolved w user dUser item Hg Hne Hu) as Hv.
  rewrite (verifyUserGrants_other_tiers w (Part000.enrich user dUser) H0 H2) in Hv.
  rewrite verifyUserGrants_eq in Hv. unfold trace at 1 in Hv. cbn [snd] in Hv.
  rewrite calculateObjectSize_eq in Hv. unfold trace in Hv. cbn [snd] in Hv.
  rewrite (HandleRequest_parsed w event user Hs Hj).
  rewrite (handleUser_unauthorized _ _ _ _ _ Hv). reflexivity.
Qed.

Lemma other_tiers_cannot_upload_witness :
  let w := Sample.world None (Sample.request 1 1) (Sample.record 1 true) [] None in
  fst (result (Part000.HandleRequest w Sample.event))
  = events.mkResponse 400 [] "Invalid User Request".
Proof.
  intros w.
  assert (Hr : resolves w (Part000.getItemInput w) Sample.event
                        (Sample.request 1 1) (Sample.record 1 true)).
  { repeat split. exists (Sample.itemOf (Sample.record 1 true)).
    repeat split. discriminate. }
  rewrite (other_tiers_cannot_upload w Sample.event _ _ Hr ltac:(discriminate)
             ltac:(discriminate)).
  reflexivity.
Defined.

(** ** The quota decision as a function of the requested size *)

Lemma calculateObjectSize_withFileSize (w : World) (size : Z) (user : User) :
  Part000.calculateObjectSize w (withFileSize size user) = Part000.calculateObjectSize w user.
Proof. reflexivity. Qed.

(** [verifyUserGrants] is monotone in the requested size: when it grants
    a size, it grants every smaller one for the same account and usage, as
    long as both sums are [int64]s. *)
Theorem verifyUserGrants_monotone :
  forall (w : World) (user : User) (size : Z),
    result (Part000.verifyUserGrants w user) = (true, None) ->
    size <= FileSize user ->
    in_int64 (result (Part000.calculateObjectSize w user) + FileSize user) ->
    in_int64 (result (Part000.calculateObjectSize w user) + size) ->
    result (Part000.verifyUserGrants w (withFileSize size user)) = (true, None).
Proof.
  intros w user size Hg Hle Hr1 Hr2.
  rewrite verifyUserGrants_eq in Hg |- *. unfold result at 1 in Hg. unfold result at 1.
  cbn [fst] in Hg |- *. rewrite calculateObjectSize_withFileSize.
  change (ServiceTier (withFileSize size user)) with (ServiceTier user).
  change (FileSize (withFileSize size user)) with size.
  rewrite (wrap64_id _ Hr1) in Hg. rewrite (wrap64_id _ Hr2).
  destruct ((ServiceTier user =? 0) || (ServiceTier user =? 2)); [|discriminate].
  set (usage := result (Part000.calculateObjectSize w user)) in *.
  destruct (usage >=? Part000.maxSize (ServiceTier user)) eqn:Hge; [discriminate|].
  destruct (usage + FileSize user >? Part000.maxSize (ServiceTier user)) eqn:Hgt;
    [discriminate|].
  cbn [orb].
  assert (Hgt' : (usage + size >? Part000.maxSize (ServiceTier user)) = false).
  { rewrite Z.gtb_ltb in Hgt |- *. apply Z.ltb_ge in Hgt. apply Z.ltb_ge. lia. }
  rewrite Hgt'. reflexivity.
Qed.

Lemma verifyUserGrants_monotone_witness :
  result (Part000.verifyUserGrants
            (Sample.world None (Sample.request 0 1) (Sample.record 0 true) Sample.twoPages None)
            (withFileSize 1000
               (Part000.enrich (Sample.request 0 4000000) (Sample.record 0 true))))
  = (true, None).
Proof.
  apply (verifyUserGrants_monotone
           (Sample.world None (Sample.request 0 1) (Sample.record 0 true) Sample.twoPages None)
           (Part000.enrich (Sample.request 0 4000000) (Sample.record 0 true)) 1000).
  - reflexivity.
  - vm_compute. discriminate.
  - vm_compute. split; discriminate.
  - vm_compute. split; discriminate.
Defined.

Lemma wrap64_overflow (z : Z) :
  max_int64 < z -> z < 2 ^ 64 -> wrap64 z = z - 2 ^ 64.
Proof.
  unfold max_int64, wrap64. intros Hlo Hhi.
  replace (z + 2 ^ 63) with ((z + 2 ^ 63 - 2 ^ 64) + 1 * 2 ^ 64) by lia.
  rewrite Z.mod_add by lia. rewrite Z.mod_small; lia.
Qed.

(** The sum [totalSize + int64(FileSize)] wraps around: on tiers 0 and
    2, an account whose usage is below the ceiling is granted every size so
    large that usage plus size exceeds the largest [int64]. *)
Theorem verifyUserGrants_grants_on_overflow :
  forall (w : World) (user : User),
    ServiceTier user = 0 \/ ServiceTier user = 2 ->
    result (Part000.calculateObjectSize w user) < Part000.maxSize (ServiceTier user) ->
    FileSize user <= max_int64 ->
    max_int64 < result (Part000.calculateObjectSize w user) + FileSize user ->
    result (Part000.verifyUserGrants w user) = (true, None).
Proof.
  intros w user Htier Hlt Hsize Hover.
  rewrite verifyUserGrants_eq. unfold result at 1. cbn [fst].
  set (usage := result (Part000.calculateObjectSize w user)) in *.
  assert (Hmax : Part000.maxSize (ServiceTier user) <= 1000000000000).
  { destruct Htier as [-> | ->]; cbn; lia. }
  assert (Hmaxpos : 0 < Part000.maxSize (ServiceTier user)).
  { destruct Htier as [-> | ->]; cbn; lia. }
  assert (Ht : (ServiceTier user =? 0) || (ServiceTier user =? 2) = true).
  { destruct Htier as [-> | ->]; reflexivity. }
  unfold max_int64 in *.
  rewrite Ht, wrap64_overflow by (unfold max_int64; lia).
  assert (Hge : (usage >=? Part000.maxSize (ServiceTier user)) = false).
  { rewrite Z.geb_leb. apply Z.leb_gt. lia. }
  assert (Hgt : (usage + FileSize user - 2 ^ 64 >? Part000.maxSize (ServiceTier user)) = false).
  { rewrite Z.gtb_ltb. apply Z.ltb_ge. lia. }
  rewrite Hge, Hgt. reflexivity.
Qed.

Lemma verifyUserGrants_grants_on_overflow_witness :
  result (Part000.verifyUserGrants
            (Sample.world None (Sample.request 0 1) (Sample.record 0 true)
                          [s3.mkListObjectsOutput [Sample.object 1]] None)
            (Part000.enrich (Sample.request 0 9223372036854775807) (Sample.record 0 true)))
  = (true, None).
Proof.
  apply verifyUserGrants_grants_on_overflow.
  - left. reflexivity.
  - vm_compute. reflexivity.
  - vm_compute. discriminate.
  - vm_compute. reflexivity.
Defined.

Lemma verifyUserGrants_follows_rule_on_tiers_0_2_witness :
  decisionOf (result (Part000.verifyUserGrants
                        (Sample.world None (Sample.request 0 1) (Sample.record 0 true)
                                      Sample.twoPages None)
                        (Part000.enrich (Sample.request 0 4000001) (Sample.record 0 true))))
  = Deny Part000.exceeded.
Proof.
  rewrite (verifyUserGrants_follows_rule_on_tiers_0_2
             (Sample.world None (Sample.request 0 1) (Sample.record 0 true)
                           Sample.twoPages None)
             (Part000.enrich (Sample.request 0 4000001) (Sample.record 0 true))).
  - reflexivity.
  - left. reflexivity.
  - vm_compute. split; discriminate.
Defined.

Lemma GetItem_error_propagates_witness :
  let w := Sample.withStore (fun _ => ([], Some "ProvisionedThroughputExceededException"))
                            (fun _ => inr zeroUser)
             (Sample.world None (Sample.request 0 1) (Sample.record 0 true) [] None) in
  Part000.HandleRequest w Sample.event
  = ((events.mkResponse 400 [] "ProvisionedThroughputExceededException", None),
     [CallNewSession; CallGetItem (Part000.getItemInput w (Sample.request 0 1))]).
Proof.
  intros w.
  exact (GetItem_error_propagates w Sample.event (Sample.request 0 1) []
           "ProvisionedThroughputExceededException" eq_refl eq_refl eq_refl).
Defined.

(** ** The usage accountant over pages *)

Lemma sizeSum_Permutation (l1 l2 : list s3.Object) :
  Permutation l1 l2 -> sizeSum l1 = sizeSum l2.
Proof.
  induction 1 as [|o l1 l2 _ IH|o1 o2 l|l1 l2 l3 _ IH1 _ IH2]; cbn [sizeSum fold_right].
  - reflexivity.
  - fold (sizeSum l1). fold (sizeSum l2). lia.
  - fold (sizeSum l). lia.
  - lia.
Qed.

(** The usage does not depend on how the backend cuts the listing into
    pages nor on the order of the objects: two enumerations holding the
    same objects, in any order and paging, give the same total. *)
Theorem calculateObjectSize_paging_independent :
  forall (w1 w2 : World) (user1 user2 : User),
    Permutation (allObjects (fst (ListPages w1 (Part000.inputparams w1 user1))))
                (allObjects (fst (ListPages w2 (Part000.inputparams w2 user2)))) ->
    result (Part000.calculateObjectSize w1 user1)
    = result (Part000.calculateObjectSize w2 user2).
Proof.
  intros w1 w2 user1 user2 Hperm.
  rewrite !calculateObjectSize_eq. unfold result. cbn [fst].
  f_equal. now apply sizeSum_Permutation.
Qed.

Lemma calculateObjectSize_paging_independent_witness :
  result (Part000.calculateObjectSize
            (Sample.world None (Sample.request 0 1) (Sample.record 0 true)
                          [s3.mkListObjectsOutput [Sample.object 5; Sample.object 7];
                           s3.mkListObjectsOutput [];
                           s3.mkListObjectsOutput [Sample.object 11]] None)
            (Sample.record 0 true))
  = result (Part000.calculateObjectSize
              (Sample.world None (Sample.request 0 1) (Sample.record 0 true)
                            [s3.mkListObjectsOutput [Sample.object 7; Sample.object 5;
                                                     Sample.object 11]] None)
              (Sample.record 0 true)).
Proof.
  apply calculateObjectSize_paging_independent.
  cbn. apply perm_swap.
Defined.

(** ** What the backends are asked *)

Lemma pageLog_expected (w : World) (user : User) (n : Z) (pages : list s3.ListObjectsOutput) :
  Forall (expectedCall w user) (pageLog n pages).
Proof.
  revert n. induction pages as [|p rest IH]; intros n; cbn [pageLog]; constructor; auto.
  exact I.
Qed.

Lemma expire_seconds : Part000.expire = 432000 * Second.
Proof. reflexivity. Qed.

(** Every backend call of a request of [part_000] carries fixed
    parameters: the lookup is keyed by the [sub] of the payload in the
    table [DYNAMO_TABLE]; [ListObjects] is never used and
    [ListObjectsPages] lists the bucket [BUCKET] with delimiter "/";
    signing is for the bucket [rsmachiner-user-code], for 432,000 seconds,
    with a key that ends in "/" and the requested file name. *)
Theorem backend_calls_are_as_expected :
  forall (w : World) (event : events.APIGatewayProxyRequest) (user : User),
    json_Unmarshal w (events.RequestBody event) = inr user ->
    Forall (expectedCall w user) (trace (Part000.HandleRequest w event)).
Proof.
  intros w event user Hj.
  destruct (NewSession w) as [e|] eqn:Hs.
  { rewrite (proj1 (HandleRequest_status_without_session w event e Hs)).
    unfold trace. cbn [snd]. repeat constructor. }
  rewrite (HandleRequest_parsed w event user Hs Hj). unfold trace at 1. cbn [snd].
  constructor; [exact I|].
  assert (Hval : forall user' r t,
             Part000.validateUser w user = ((user', r), t) ->
             Forall (expectedCall w user) t /\ FileRequest user' = FileRequest user).
  { intros user' r t. unfold Part000.validateUser, bind, ret, emit.
    destruct (GetItem w (Part000.getItemInput w user)) as [item [e|]].
    { intros H; inversion H; subst. split; [repeat constructor | reflexivity]. }
    destruct (Z.of_nat (length item) =? 0).
    { intros H; inversion H; subst. split; [repeat constructor | reflexivity]. }
    destruct (UnmarshalMap w item) as [e|dUser].
    { intros H; inversion H; subst. split; [repeat constructor | reflexivity]. }
    pose proof (verifyUserGrants_eq w (Part000.enrich user dUser)) as Hg.
    rewrite calculateObjectSize_eq in Hg. unfold trace in Hg. cbn [snd] in Hg.
    destruct (Part000.verifyUserGrants w (Part000.enrich user dUser)) as [[grants err] tg].
    inversion Hg; subst tg. clear Hg.
    assert (Hall : Forall (expectedCall w user)
                     (CallGetItem (Part000.getItemInput w user)
                        :: LogUser (Part000.enrich user dUser)
                        :: CallListObjectsPages
                             (Part000.inputparams w (Part000.enrich user dUser))
                        :: pageLog 0 (fst (ListPages w (Part000.inputparams w
                                                          (Part000.enrich user dUser)))))).
    { constructor; [split; reflexivity|]. constructor; [exact I|].
      constructor; [split; reflexivity|]. apply pageLog_expected. }
    destruct err as [e|]; [|destruct (grants && Payed (Part000.enrich user dUser))];
      intros H; inversion H; subst; cbn [app]; rewrite app_nil_r;
      (split; [exact Hall | reflexivity]). }
  destruct (Part000.validateUser w user) as [[user' [valid err]] t] eqn:Hv.
  destruct (Hval _ _ _ eq_refl) as [Ht Hf].
  assert (Hdenied : valid = false \/ err <> None ->
                    trace (Part000.handleUser w user) = t).
  { intros Hd. unfold Part000.handleUser, bind, ret, trace. rewrite Hv.
    destruct valid, err; cbn [negb orb snd]; rewrite ?app_nil_r; try reflexivity.
    destruct Hd; congruence. }
  destruct valid; [destruct err as [e|]|].
  - rewrite Hdenied by (right; discriminate). exact Ht.
  - rewrite (handleUser_authorized _ _ _ _ Hv). unfold trace. cbn [snd].
    apply Forall_app. split; [exact Ht|].
    constructor; [|constructor; [exact I | constructor]].
    cbn [expectedCall]. split; [reflexivity|]. split; [exact expire_seconds|].
    exists (CompanyID user'). cbn [Part000.putObjectInput s3.PutKey]. rewrite Hf. reflexivity.
  - rewrite Hdenied by (left; reflexivity). exact Ht.
Qed.

Lemma backend_calls_are_as_expected_witness :
  let w := Sample.world None (Sample.request 0 5000000) (Sample.record 0 true)
                        Sample.twoPages None in
  Forall (expectedCall w (Sample.request 0 5000000)) (trace (Part000.HandleRequest w Sample.event)).
Proof.
  intros w.
  exact (backend_calls_are_as_expected w Sample.event (Sample.request 0 5000000) eq_refl).
Defined.

(** ** Shape of the responses *)

(** The two CORS headers are set on the 200 response of [part_000] and
    on no other response; [main.go] never sets a header. *)
Theorem headers_only_on_success :
  forall (w : World) (event : events.APIGatewayProxyRequest),
    events.Headers (fst (result (Part000.HandleRequest w event)))
    = (if events.StatusCode (fst (result (Part000.HandleRequest w event))) =? 200
       then [("Access-Control-Allow-Origin", "*"); ("Access-Control-Allow-Methods", "*")]
       else []) /\
    events.Headers (fst (result (MainGo.HandleRequest w event))) = [].
Proof.
  intros w event. split; unfold_handler;
    repeat (split_path; cbn [fst snd events.StatusCode events.Headers Z.eqb Pos.eqb]);
    reflexivity.
Qed.

(** When [session.NewSession()] fails, both revisions answer with the
    error message as body and no status code, before the payload is
    parsed and without calling any backend. *)
Theorem session_failure_calls_nothing :
  forall (w : World) (event : events.APIGatewayProxyRequest) (e : error),
    NewSession w = Some e ->
    Part000.HandleRequest w event = ((events.mkResponse 0 [] e, None), [CallNewSession]) /\
    MainGo.HandleRequest w event = ((events.mkResponse 0 [] e, None), [CallNewSession]).
Proof.
  intros w event e Hs.
  unfold Part000.HandleRequest, MainGo.HandleRequest, bind, emit, ret.
  rewrite Hs. split; reflexivity.
Qed.

Lemma session_failure_calls_nothing_witness :
  trace (Part000.HandleRequest
           (Sample.world (Some "SharedConfigLoadError: failed to load config file")
                         (Sample.request 0 1) (Sample.record 0 true) [] None)
           (events.mkRequest "{"))
  = [CallNewSession].
Proof.
  rewrite (proj1 (session_failure_calls_nothing
                    (Sample.world (Some "SharedConfigLoadError: failed to load config file")
                                  (Sample.request 0 1) (Sample.record 0 true) [] None)
                    (events.mkRequest "{")
                    "SharedConfigLoadError: failed to load config file" eq_refl)).
  reflexivity.
Defined.

(** ** What [validateUser] leaves untouched *)

(** On every path [validateUser] keeps the [email], [sub], [user_name],
    [file_request] and [file_size] of the request: only [CompanyID],
    [ServiceTier] and [Payed] are ever taken from the stored record, in
    both revisions. *)
Theorem validateUser_keeps_request_fields :
  forall (w : World) (user : User),
    (let user' := fst (result (Part000.validateUser w user)) in
     Email user' = Email user /\ Sub user' = Sub user /\ UserName user' = UserName user /\
     FileRequest user' = FileRequest user /\ FileSize user' = FileSize user) /\
    (let user' := fst (result (MainGo.validateUser w user)) in
     Email user' = Email user /\ Sub user' = Sub user /\ UserName user' = UserName user /\
     FileRequest user' = FileRequest user /\ FileSize user' = FileSize user).
Proof.
  intros w user. split; cbv zeta;
    unfold Part000.validateUser, MainGo.validateUser, bind, ret, emit, result;
    repeat (split_path; cbn [fst snd]); repeat split.
Qed.

Lemma calculateObjectSize_counts_top_level_only_witness :
  let w := Sample.withBucket Sample.nestedBucket
             (Sample.world None (Sample.request 0 1) (Sample.record 0 true) [] None) in
  result (Part000.calculateObjectSize w (Sample.record 0 true))
  = wrap64 (sizeSum (S3Model.contents (Part000.inputparams w (Sample.record 0 true))
                                      Sample.nestedBucket)) /\
  sizeSum (S3Model.stored "acme/" Sample.nestedBucket) = 1000000 + 9500000.
Proof.
  intros w.
  destruct (calculateObjectSize_counts_top_level_only w (Sample.record 0 true)
              Sample.nestedBucket eq_refl) as [Hres Hsum].
  split; [exact Hres | exact Hsum].
Defined.
